(** * Order placement and settlement of the market backend

    A shallow embedding of the order workflow of the marketplace backend:
    the commission helpers ([src/market/utils/helpers.ts]), the order
    controller ([src/market/controllers/orderController.ts]), the request
    schemas ([validators.ts]), the constants table ([constants.ts]) and the
    payment and notification services ([paymentService.ts],
    [notificationService.ts]).

    JavaScript numbers are IEEE-754 binary64 values and are modelled by the
    kernel's primitive floats, so every arithmetic step and every comparison
    of the source keeps its rounding and its NaN behaviour.  Prisma tables
    are finite maps from the primary (or unique) key to the row.  A handler
    is a function from the world (database and the trace of outgoing calls)
    to the HTTP reply and the new world. *)

From Stdlib Require Import PrimFloat FloatOps SpecFloat FloatAxioms ZArith.
From stdpp Require Import base option list gmap strings.

#[local] Set Warnings "-inexact-float".
#[local] Open Scope string_scope.

(** ** Enumerations of the Prisma schema *)

Inductive UserRole := CUSTOMER | VENDOR | ADMIN.

(** [VendorType] before and after the migration under [prisma/migrations]:
    the helpers still compare against [LOCAL_MARKET], the migration
    introduces the pharmacy values. *)
Inductive VendorType :=
  | HOTEL | ADVENTURE | TRANSPORT | LOCAL_MARKET
  | PHARMACY | MEDICAL_STORE | HOSPITAL_PHARMACY | ONLINE_PHARMACY
  | WELLNESS_STORE | OTHER.

Inductive VendorStatus :=
  | VENDOR_PENDING | APPROVED | REJECTED | SUSPENDED.

Inductive BookingStatus :=
  | DRAFT | PENDING | CONFIRMED | CANCELLED | COMPLETED.

Inductive PaymentStatus :=
  | PAYMENT_PENDING | SUCCESS | FAILED | REFUNDED.

#[global] Instance UserRole_eq_dec : EqDecision UserRole.
Proof. solve_decision. Defined.
#[global] Instance VendorType_eq_dec : EqDecision VendorType.
Proof. solve_decision. Defined.
#[global] Instance VendorStatus_eq_dec : EqDecision VendorStatus.
Proof. solve_decision. Defined.
#[global] Instance BookingStatus_eq_dec : EqDecision BookingStatus.
Proof. solve_decision. Defined.
#[global] Instance PaymentStatus_eq_dec : EqDecision PaymentStatus.
Proof. solve_decision. Defined.

(** ** JavaScript numbers *)

Abbreviation number := float.

Module Js.

Definition lt (a b : number) : bool := PrimFloat.ltb a b.
Definition gt (a b : number) : bool := PrimFloat.ltb b a.
Definition le (a b : number) : bool := PrimFloat.leb a b.
Definition ge (a b : number) : bool := PrimFloat.leb b a.

Definition isNaN (a : number) : bool := negb (PrimFloat.eqb a a).

(** Truthiness of a number: [0], [-0] and [NaN] are falsy. *)
Definition truthy_number (a : number) : bool :=
  negb (PrimFloat.eqb a 0%float || isNaN a).

(** Truthiness of an optional string: [undefined] and [""] are falsy. *)
Definition truthy_string (s : option string) : bool :=
  match s with
  | Some s => negb (bool_decide (s = ""))
  | None => false
  end.

(** [Number.isInteger]: a finite value [m * 2^e] without fractional part. *)
Definition isInteger (a : number) : bool :=
  match Prim2SF a with
  | S754_zero _ => true
  | S754_finite _ m e =>
      (0 <=? e)%Z || (Z.pos m mod 2 ^ (- e) =? 0)%Z
  | _ => false
  end.

End Js.

(** ** Constants ([common/constants.ts]) *)

Module API_MESSAGES.
Definition ORDER_CREATED := "Order placed successfully".
Definition ORDER_UPDATED := "Order status updated".
Definition FORBIDDEN := "Access forbidden".
Definition VALIDATION_ERROR := "Validation error".
Definition ORDER_NOT_FOUND := "Order not found".
Definition VENDOR_NOT_APPROVED := "Vendor is not approved".
Definition INVALID_ORDER_STATUS := "Invalid order status transition".
End API_MESSAGES.

Definition ORDER_STATUS_FLOW (s : BookingStatus) : list BookingStatus :=
  match s with
  | DRAFT => [PENDING; CANCELLED]
  | PENDING => [CONFIRMED; CANCELLED]
  | CONFIRMED => [COMPLETED; CANCELLED]
  | CANCELLED => []
  | COMPLETED => []
  end.

Module COMMISSION_RATES.
Definition LOCAL_MARKET : number := 10.0%float.
Definition DEFAULT : number := 16.0%float.
End COMMISSION_RATES.

(** ** Business helpers ([market/utils/helpers.ts]) *)

Definition calculateCommission (amount : number) (vendorType : VendorType)
  : number :=
  let rate :=
    if decide (vendorType = LOCAL_MARKET)
    then COMMISSION_RATES.LOCAL_MARKET
    else COMMISSION_RATES.DEFAULT in
  ((amount * rate) / 100)%float.

Definition calculateVendorAmount (totalAmount commissionAmount : number)
  : number :=
  (totalAmount - commissionAmount)%float.

Definition isValidOrderStatusTransition
  (currentStatus newStatus : BookingStatus) : bool :=
  bool_decide (newStatus ∈ ORDER_STATUS_FLOW currentStatus).

(** ** Rows of the tables the order workflow reads and writes *)

Record Vendor := mkVendor {
  vendor_status : VendorStatus;
  vendor_vendorType : VendorType;
  vendor_commissionRate : number
}.

Record PharmacyProfile := mkPharmacyProfile {
  profile_vendorId : string
}.

Record Product := mkProduct {
  product_pharmacyProfileId : string;
  product_medicineName : string;
  product_isAvailable : bool;
  product_priceMin : number;
  product_priceMax : number;
  product_minOrderQuantity : number
}.

Record Booking := mkBooking {
  booking_userId : string;
  booking_vendorId : string;
  booking_bookingType : VendorType;
  booking_totalAmount : number;
  booking_commissionAmount : number;
  booking_status : BookingStatus
}.

(** One order line ([pharmacy_bookings]). *)
Record PharmacyBooking := mkPharmacyBooking {
  line_bookingId : string;
  line_pharmacyProfileId : string;
  line_productId : string;
  line_quantity : number;
  line_unitPrice : number;
  line_totalAmount : number;
  line_requiresDelivery : bool;
  line_deliveryAddress : option string;
  line_status : BookingStatus
}.

(** A row of the older [market_bookings] table, which the payment service
    still addresses. *)
Record MarketBooking := mkMarketBooking {
  market_bookingId : string;
  market_status : BookingStatus
}.

Record Payment := mkPayment {
  payment_id : string;
  payment_vendorId : string;
  payment_totalAmount : number;
  payment_commissionAmount : number;
  payment_vendorAmount : number;
  payment_paymentMethod : string;
  payment_paymentStatus : PaymentStatus;
  payment_razorpayOrderId : option string;
  payment_razorpayPaymentId : option string;
  payment_razorpaySignature : option string;
  payment_refundId : option string;
  payment_refundAmount : option number
}.

(** The database.  [products], [pharmacyProfiles], [vendors], [bookings] and
    [pharmacyBookings] are keyed by the row id; [payments] is keyed by its
    unique [bookingId] (one payment per booking) and carries the row id as a
    field.  [marketBookings] is [None] when the generated client has no
    such model (the migration drops the table): every call on it throws. *)
Record DB := mkDB {
  products : gmap string Product;
  pharmacyProfiles : gmap string PharmacyProfile;
  vendors : gmap string Vendor;
  bookings : gmap string Booking;
  pharmacyBookings : gmap string PharmacyBooking;
  marketBookings : option (gmap string MarketBooking);
  payments : gmap string Payment
}.

Definition set_bookings (f : gmap string Booking → gmap string Booking)
  (d : DB) : DB :=
  mkDB (products d) (pharmacyProfiles d) (vendors d) (f (bookings d))
       (pharmacyBookings d) (marketBookings d) (payments d).

Definition set_pharmacyBookings
  (f : gmap string PharmacyBooking → gmap string PharmacyBooking)
  (d : DB) : DB :=
  mkDB (products d) (pharmacyProfiles d) (vendors d) (bookings d)
       (f (pharmacyBookings d)) (marketBookings d) (payments d).

Definition set_marketBookings (t : gmap string MarketBooking) (d : DB) : DB :=
  mkDB (products d) (pharmacyProfiles d) (vendors d) (bookings d)
       (pharmacyBookings d) (Some t) (payments d).

Definition set_payments (f : gmap string Payment → gmap string Payment)
  (d : DB) : DB :=
  mkDB (products d) (pharmacyProfiles d) (vendors d) (bookings d)
       (pharmacyBookings d) (marketBookings d) (f (payments d)).

Definition with_booking_status (s : BookingStatus) (b : Booking) : Booking :=
  mkBooking (booking_userId b) (booking_vendorId b) (booking_bookingType b)
            (booking_totalAmount b) (booking_commissionAmount b) s.

Definition with_line_status (s : BookingStatus) (l : PharmacyBooking)
  : PharmacyBooking :=
  mkPharmacyBooking (line_bookingId l) (line_pharmacyProfileId l)
    (line_productId l) (line_quantity l) (line_unitPrice l)
    (line_totalAmount l) (line_requiresDelivery l) (line_deliveryAddress l) s.

Definition with_market_status (s : BookingStatus) (l : MarketBooking)
  : MarketBooking :=
  mkMarketBooking (market_bookingId l) s.

Definition with_razorpayOrderId (o : string) (p : Payment) : Payment :=
  mkPayment (payment_id p) (payment_vendorId p) (payment_totalAmount p)
    (payment_commissionAmount p) (payment_vendorAmount p)
    (payment_paymentMethod p) (payment_paymentStatus p) (Some o)
    (payment_razorpayPaymentId p) (payment_razorpaySignature p)
    (payment_refundId p) (payment_refundAmount p).

Definition with_payment_success (pid sig : string) (p : Payment) : Payment :=
  mkPayment (payment_id p) (payment_vendorId p) (payment_totalAmount p)
    (payment_commissionAmount p) (payment_vendorAmount p)
    (payment_paymentMethod p) SUCCESS (payment_razorpayOrderId p)
    (Some pid) (Some sig) (payment_refundId p) (payment_refundAmount p).

Definition with_paymentStatus (s : PaymentStatus) (p : Payment) : Payment :=
  mkPayment (payment_id p) (payment_vendorId p) (payment_totalAmount p)
    (payment_commissionAmount p) (payment_vendorAmount p)
    (payment_paymentMethod p) s (payment_razorpayOrderId p)
    (payment_razorpayPaymentId p) (payment_razorpaySignature p)
    (payment_refundId p) (payment_refundAmount p).

Definition with_refund (rid : string) (amount : number) (p : Payment)
  : Payment :=
  mkPayment (payment_id p) (payment_vendorId p) (payment_totalAmount p)
    (payment_commissionAmount p) (payment_vendorAmount p)
    (payment_paymentMethod p) REFUNDED (payment_razorpayOrderId p)
    (payment_razorpayPaymentId p) (payment_razorpaySignature p)
    (Some rid) (Some amount).

(** ** Prisma queries

    A query that throws (a missing row for [update], a violated unique
    constraint for [create], a model the client does not have) answers
    [None]. *)

Module Prisma.

(** A product of [product.findMany] with its [pharmacyProfile.vendor]
    included. *)
Record ProductWithVendor := mkProductWithVendor {
  found_id : string;
  found_product : Product;
  found_vendorId : string;
  found_vendor : Vendor
}.

Definition include_vendor (d : DB) (row : string * Product)
  : option ProductWithVendor :=
  profile ← pharmacyProfiles d !! product_pharmacyProfileId row.2;
  vendor ← vendors d !! profile_vendorId profile;
  Some (mkProductWithVendor row.1 row.2 (profile_vendorId profile) vendor).

(** [product.findMany({ where: { id: { in: ids }, isAvailable: true },
    include: ... })]: every available row whose id is listed, once, here in
    the order of first mention.  A required relation that does not resolve
    makes the query throw. *)
Definition product_findMany (d : DB) (ids : list string)
  : option (list ProductWithVendor) :=
  mapM (include_vendor d)
    (filter (λ row, product_isAvailable row.2 = true)
       (omap (λ id, (λ p, (id, p)) <$> products d !! id)
          (remove_dups ids))).

Definition booking_create (id : string) (row : Booking) (d : DB)
  : option DB :=
  match bookings d !! id with
  | Some _ => None
  | None => Some (set_bookings <[id := row]> d)
  end.

Definition pharmacyBooking_create (id : string) (row : PharmacyBooking)
  (d : DB) : option DB :=
  match pharmacyBookings d !! id with
  | Some _ => None
  | None => Some (set_pharmacyBookings <[id := row]> d)
  end.

(** The payment whose row id is [id], with the booking it belongs to. *)
Definition payment_findUnique_id (d : DB) (id : string)
  : option (string * Payment) :=
  head (filter (λ kv, payment_id kv.2 = id) (map_to_list (payments d))).

Definition payment_create (bookingId : string) (row : Payment) (d : DB)
  : option DB :=
  match payments d !! bookingId, payment_findUnique_id d (payment_id row) with
  | None, None => Some (set_payments <[bookingId := row]> d)
  | _, _ => None
  end.

Definition booking_update (id : string) (f : Booking → Booking) (d : DB)
  : option DB :=
  b ← bookings d !! id;
  Some (set_bookings <[id := f b]> d).

Definition pharmacyBooking_updateMany (bookingId : string)
  (s : BookingStatus) (d : DB) : DB :=
  set_pharmacyBookings
    (fmap (λ l, if decide (line_bookingId l = bookingId)
                then with_line_status s l else l)) d.

Definition marketBooking_updateMany (bookingId : string)
  (s : BookingStatus) (d : DB) : option DB :=
  t ← marketBookings d;
  Some (set_marketBookings
          ((λ l, if decide (market_bookingId l = bookingId)
                 then with_market_status s l else l) <$> t) d).

(** [payment.update({ where: { bookingId }, data })]. *)
Definition payment_update (bookingId : string) (f : Payment → Payment)
  (d : DB) : option DB :=
  p ← payments d !! bookingId;
  Some (set_payments <[bookingId := f p]> d).

(** [payment.update({ where: { id }, data })]. *)
Definition payment_update_id (id : string) (f : Payment → Payment) (d : DB)
  : option DB :=
  kv ← payment_findUnique_id d id;
  Some (set_payments <[kv.1 := f kv.2]> d).

(** [payment.updateMany({ where: { refundId }, data })]. *)
Definition payment_updateMany_refundId (refundId : string)
  (f : Payment → Payment) (d : DB) : DB :=
  set_payments
    (fmap (λ p, if decide (payment_refundId p = Some refundId)
                then f p else p)) d.

(** [booking.findFirst({ where: { id, vendorId } })]. *)
Definition booking_findFirst_vendor (d : DB) (id vendorId : string)
  : option Booking :=
  b ← bookings d !! id;
  if decide (booking_vendorId b = vendorId) then Some b else None.

(** [booking.findFirst({ where: { id, userId } })]. *)
Definition booking_findFirst_user (d : DB) (id userId : string)
  : option Booking :=
  b ← bookings d !! id;
  if decide (booking_userId b = userId) then Some b else None.

End Prisma.

(** ** Requests, replies and the outside world *)

Record AuthenticatedUser := mkUser {
  user_userId : string;
  user_phoneNumber : string;
  user_role : UserRole;
  user_vendorId : option string
}.

(** An item of the request body ([requiresDelivery] with its schema default
    applied). *)
Record OrderItem := mkOrderItem {
  item_productId : string;
  item_quantity : number;
  item_unitPrice : number;
  item_requiresDelivery : bool;
  item_deliveryAddress : option string
}.

Record CreateOrderData := mkCreateOrderData {
  order_items : list OrderItem;
  order_totalAmount : number;
  order_paymentMethod : option string
}.

Record UpdateOrderStatusData := mkUpdateOrderStatusData {
  update_status : BookingStatus;
  update_notes : option string
}.

Record ValidatedItem := mkValidatedItem {
  valid_productId : string;
  valid_quantity : number;
  valid_unitPrice : number;
  valid_totalAmount : number;
  valid_requiresDelivery : bool;
  valid_deliveryAddress : option string
}.

Record OrderCreatedData := mkOrderCreatedData {
  created_orderId : string;
  created_totalAmount : number;
  created_commissionAmount : number;
  created_status : BookingStatus;
  created_items : list ValidatedItem;
  created_paymentStatus : PaymentStatus;
  created_paymentMethod : string;
  created_razorpayOrderId : option string
}.

Inductive ResponseData :=
  | NoData
  | OrderCreated (d : OrderCreatedData)
  | OrderStatus (id : string) (status : BookingStatus).

(** The response envelope of [createSuccessResponse] and
    [createErrorResponse] (the [errors] detail of a schema failure is not
    kept). *)
Record ApiResponse := mkApiResponse {
  success : bool;
  message : string;
  data : ResponseData
}.

Definition createSuccessResponse (message : string) (data : ResponseData)
  : ApiResponse :=
  mkApiResponse true message data.

Definition createErrorResponse (message : string) : ApiResponse :=
  mkApiResponse false message NoData.

(** [res.status(code).json(body)]. *)
Record Reply := mkReply {
  reply_status : nat;
  reply_json : ApiResponse
}.

Definition fail (code : nat) (message : string) : Reply :=
  mkReply code (createErrorResponse message).

(** The Razorpay client. *)
Record OrderOptions := mkOrderOptions {
  options_amount : number;
  options_currency : string;
  options_receipt : string;
  options_notes_orderId : string;
  options_notes_customerPhone : string;
  options_notes_customerName : string
}.

Record RazorpayOrder := mkRazorpayOrder {
  rzp_order_id : string;
  rzp_order_amount : number;
  rzp_order_currency : string;
  rzp_order_status : string
}.

Record RefundOptions := mkRefundOptions {
  refund_amount : number;
  refund_notes_reason : string;
  refund_notes_bookingId : string
}.

Record RazorpayRefund := mkRazorpayRefund {
  rzp_refund_id : string;
  rzp_refund_status : string
}.

(** What the gateway answers to each call; [None] is a rejected promise. *)
Record Razorpay := mkRazorpay {
  orders_create : OrderOptions → option RazorpayOrder;
  payments_refund : string → RefundOptions → option RazorpayRefund
}.

Record PaymentEntity := mkPaymentEntity {
  entity_id : string;
  entity_order_id : string;
  entity_notes_orderId : option string;
  entity_error_description : option string
}.

(** A webhook body: [event], [payload.payment.entity] and
    [payload.refund.entity], each absent or present. *)
Record WebhookPayload := mkWebhookPayload {
  webhook_event : string;
  webhook_payment : option PaymentEntity;
  webhook_refund : option string
}.

(** The parts of the platform the source calls and does not define. *)
Record Runtime := mkRuntime {
  Number_toString : number → string;
  Math_round : number → number;
  JSON_stringify : WebhookPayload → string;
  (** [crypto.createHmac("sha256", key).update(text).digest("hex")] *)
  hmac_sha256_hex : string → string → string;
  (** the string format [z.string().cuid()] accepts *)
  zod_cuid : string → bool;
  (** [process.env] as [PAYMENT] reads it *)
  RAZORPAY_KEY_SECRET : option string;
  WEBHOOK_SECRET : option string
}.

Inductive NotificationTemplate :=
  | ORDER_PLACED | ORDER_CONFIRMED | ORDER_COMPLETED | ORDER_CANCELLED
  | NEW_ORDER_VENDOR.

(** Calls across the service boundaries, in the order they are made: the
    requests sent to the gateway, the invocations of the adapter's
    [initiateRefund], and the notifications. *)
Inductive Event :=
  | RazorpayOrdersCreate (options : OrderOptions)
  | RazorpayPaymentsRefund (paymentId : string) (options : RefundOptions)
  | InitiateRefund (paymentId : string) (amount : option number)
      (reason : option string)
  | Notification (userId : string) (template : NotificationTemplate)
      (orderId : string).

Record World := mkWorld {
  db : DB;
  trace : list Event
}.

Definition set_db (d : DB) (w : World) : World := mkWorld d (trace w).
Definition emit (e : Event) (w : World) : World :=
  mkWorld (db w) (trace w ++ [e]).

(** How an [async] method that returns nothing ends. *)
Inductive Completion := Returned | Threw.

(** ** Request schemas ([market/utils/validators.ts]) *)

Definition max_length (n : nat) (s : option string) : bool :=
  match s with
  | Some s => bool_decide (String.length s ≤ n)%nat
  | None => true
  end.

Definition orderItemSchema (rt : Runtime) (item : OrderItem) : bool :=
  zod_cuid rt (item_productId item)
  && Js.isInteger (item_quantity item)
  && Js.ge (item_quantity item) 1%float
  && Js.ge (item_unitPrice item) 0.01%float
  && max_length 500 (item_deliveryAddress item).

Definition createOrderSchema (rt : Runtime) (body : CreateOrderData) : bool :=
  bool_decide (1 ≤ length (order_items body))%nat
  && forallb (orderItemSchema rt) (order_items body)
  && Js.ge (order_totalAmount body) 0.01%float.

Definition updateOrderStatusSchema (body : UpdateOrderStatusData) : bool :=
  bool_decide (update_status body ∈ [CONFIRMED; CANCELLED; COMPLETED])
  && max_length 500 (update_notes body).

(** ** Notification service ([services/notificationService.ts])

    [sendNotification] logs and stores nothing; every failure is caught
    inside, so the method always returns. *)

Module NotificationService.

Definition sendOrderNotification (type : NotificationTemplate)
  (orderId userId : string) (vendorId : option string) (w : World)
  : World :=
  let w1 :=
    match type, vendorId with
    | ORDER_PLACED, Some v =>
        if Js.truthy_string vendorId
        then emit (Notification v NEW_ORDER_VENDOR orderId) w
        else w
    | _, _ => w
    end in
  emit (Notification userId type orderId) w1.

End NotificationService.

(** ** Payment service ([services/paymentService.ts]) *)

Module PaymentService.

Record PaymentData := mkPaymentData {
  data_amount : number;
  data_currency : string;
  data_orderId : string;
  data_customer_name : string;
  data_customer_phone : string
}.

Record PaymentVerificationData := mkPaymentVerificationData {
  razorpay_payment_id : string;
  razorpay_order_id : string;
  razorpay_signature : string
}.

Section Service.

Context (rt : Runtime) (razorpay : Razorpay).

(** The [options] object of [createOrder]. *)
Definition order_options (paymentData : PaymentData) : OrderOptions :=
  mkOrderOptions
    (Math_round rt (data_amount paymentData * 100)%float)
    (data_currency paymentData)
    (data_orderId paymentData)
    (data_orderId paymentData)
    (data_customer_phone paymentData)
    (data_customer_name paymentData).

(** [createOrder]: [None] when the gateway call fails and the method
    throws "Failed to create payment order". *)
Definition createOrder (paymentData : PaymentData) (w : World)
  : option RazorpayOrder * World :=
  let options := order_options paymentData in
  let w1 := emit (RazorpayOrdersCreate options) w in
  match orders_create razorpay options with
  | Some order =>
      (Some (mkRazorpayOrder (rzp_order_id order)
               (rzp_order_amount order / 100)%float
               (rzp_order_currency order) (rzp_order_status order)), w1)
  | None => (None, w1)
  end.

Definition verifyPaymentSignature (data : PaymentVerificationData) : bool :=
  match RAZORPAY_KEY_SECRET rt with
  | Some secret =>
      if Js.truthy_string (Some secret) then
        let generatedSignature :=
          hmac_sha256_hex rt secret
            (razorpay_order_id data ++ "|" ++ razorpay_payment_id data) in
        bool_decide (generatedSignature = razorpay_signature data)
      else false
  | None => false
  end.

(** The three updates run one after the other, outside any transaction:
    the ones before a failing step stay applied. *)
Definition processPaymentSuccess (bookingId : string)
  (verificationData : PaymentVerificationData) (w : World)
  : Completion * World :=
  if negb (verifyPaymentSignature verificationData) then (Threw, w) else
  match Prisma.payment_update bookingId
          (with_payment_success (razorpay_payment_id verificationData)
             (razorpay_signature verificationData)) (db w) with
  | None => (Threw, w)
  | Some d1 =>
      match Prisma.booking_update bookingId
              (with_booking_status CONFIRMED) d1 with
      | None => (Threw, set_db d1 w)
      | Some d2 =>
          match Prisma.marketBooking_updateMany bookingId CONFIRMED d2 with
          | None => (Threw, set_db d2 w)
          | Some d3 => (Returned, set_db d3 w)
          end
      end
  end.

Definition processPaymentFailure (bookingId : string) (w : World)
  : Completion * World :=
  match Prisma.payment_update bookingId (with_paymentStatus FAILED)
          (db w) with
  | None => (Threw, w)
  | Some d1 =>
      match Prisma.booking_update bookingId
              (with_booking_status CANCELLED) d1 with
      | None => (Threw, set_db d1 w)
      | Some d2 =>
          match Prisma.marketBooking_updateMany bookingId CANCELLED d2 with
          | None => (Threw, set_db d2 w)
          | Some d3 => (Returned, set_db d3 w)
          end
      end
  end.

(** Every invocation is recorded in the trace before anything else. *)
Definition initiateRefund (paymentId : string) (amount : option number)
  (reason : option string) (w : World) : Completion * World :=
  let w0 := emit (InitiateRefund paymentId amount reason) w in
  match Prisma.payment_findUnique_id (db w0) paymentId with
  | None => (Threw, w0)
  | Some (bookingId, payment) =>
      match payment_razorpayPaymentId payment with
      | None => (Threw, w0)
      | Some razorpayPaymentId =>
          if negb (Js.truthy_string (Some razorpayPaymentId))
          then (Threw, w0)
          else if negb (bool_decide
                          (payment_paymentStatus payment = SUCCESS))
          then (Threw, w0)
          else
            let refundAmount :=
              match amount with
              | Some a =>
                  if Js.truthy_number a then a
                  else payment_totalAmount payment
              | None => payment_totalAmount payment
              end in
            let options :=
              mkRefundOptions
                (Math_round rt (refundAmount * 100)%float)
                (if Js.truthy_string reason
                 then default "" reason else "Customer refund request")
                bookingId in
            let w1 :=
              emit (RazorpayPaymentsRefund razorpayPaymentId options) w0 in
            match payments_refund razorpay razorpayPaymentId options with
            | None => (Threw, w1)
            | Some refund =>
                match Prisma.payment_update_id paymentId
                        (with_refund (rzp_refund_id refund) refundAmount)
                        (db w1) with
                | None => (Threw, w1)
                | Some d => (Returned, set_db d w1)
                end
            end
      end
  end.

(** The private handlers catch whatever is thrown below them. *)
Definition handlePaymentCaptured (paymentEntity : PaymentEntity)
  (w : World) : World :=
  match entity_notes_orderId paymentEntity with
  | None => w
  | Some orderId =>
      if negb (Js.truthy_string (Some orderId)) then w else
      match bookings (db w) !! orderId with
      | None => w
      | Some _ =>
          (processPaymentSuccess orderId
             (mkPaymentVerificationData
                (entity_id paymentEntity)
                (entity_order_id paymentEntity)
                "") w).2
      end
  end.

Definition handlePaymentFailed (paymentEntity : PaymentEntity)
  (w : World) : World :=
  match entity_notes_orderId paymentEntity with
  | None => w
  | Some orderId =>
      if negb (Js.truthy_string (Some orderId)) then w else
      match bookings (db w) !! orderId with
      | None => w
      | Some _ => (processPaymentFailure orderId w).2
      end
  end.

Definition handleRefundProcessed (refundId : string) (w : World) : World :=
  set_db (Prisma.payment_updateMany_refundId refundId
            (with_paymentStatus REFUNDED) (db w)) w.

Definition handleWebhook (signature : string) (payload : WebhookPayload)
  (w : World) : Completion * World :=
  match WEBHOOK_SECRET rt with
  | None => (Threw, w)
  | Some secret =>
      if negb (Js.truthy_string (Some secret)) then (Threw, w) else
      let expectedSignature :=
        hmac_sha256_hex rt secret (JSON_stringify rt payload) in
      if negb (bool_decide (signature = expectedSignature))
      then (Threw, w)
      else
        match webhook_payment payload with
        | None => (Threw, w)
        | Some paymentEntity =>
            if bool_decide (webhook_event payload = "payment.captured")
            then (Returned, handlePaymentCaptured paymentEntity w)
            else if bool_decide (webhook_event payload = "payment.failed")
            then (Returned, handlePaymentFailed paymentEntity w)
            else if bool_decide
                      (webhook_event payload = "refund.processed")
            then
              match webhook_refund payload with
              | None => (Threw, w)
              | Some refundId =>
                  (Returned, handleRefundProcessed refundId w)
              end
            else (Returned, w)
        end
  end.

End Service.

End PaymentService.

(** ** Order controller ([controllers/orderController.ts]) *)

Module OrderController.

Import Prisma.

Definition min_quantity_message (rt : Runtime) (p : Product) : string :=
  "Minimum order quantity for " ++ product_medicineName p ++ " is "
    ++ Number_toString rt (product_minOrderQuantity p).

Definition invalid_price_message (rt : Runtime) (p : Product) : string :=
  "Invalid price for " ++ product_medicineName p
    ++ ". Price should be between ₹" ++ Number_toString rt (product_priceMin p)
    ++ " and ₹" ++ Number_toString rt (product_priceMax p).

Definition find_product (products : list ProductWithVendor) (id : string)
  : option ProductWithVendor :=
  List.find (λ p, bool_decide (found_id p = id)) products.

(** One turn of the loop over [orderData.items]: the accumulator is
    [calculatedTotal] and [validatedItems]; [inl] is the early return. *)
Definition validate_item (rt : Runtime) (products : list ProductWithVendor)
  (acc : number * list ValidatedItem) (item : OrderItem)
  : string + number * list ValidatedItem :=
  match find_product products (item_productId item) with
  | None => inr acc
  | Some found =>
      let product := found_product found in
      if Js.lt (item_quantity item) (product_minOrderQuantity product)
      then inl (min_quantity_message rt product)
      else if Js.lt (item_unitPrice item) (product_priceMin product)
              || Js.gt (item_unitPrice item) (product_priceMax product)
      then inl (invalid_price_message rt product)
      else
        let itemTotal := (item_unitPrice item * item_quantity item)%float in
        inr ((acc.1 + itemTotal)%float,
             (acc.2 ++ [mkValidatedItem (item_productId item)
                          (item_quantity item) (item_unitPrice item)
                          itemTotal (item_requiresDelivery item)
                          (if Js.truthy_string (item_deliveryAddress item)
                           then item_deliveryAddress item else None)])%list)
  end.

Fixpoint validate_items (rt : Runtime) (products : list ProductWithVendor)
  (acc : number * list ValidatedItem) (items : list OrderItem)
  : string + number * list ValidatedItem :=
  match items with
  | [] => inr acc
  | item :: rest =>
      match validate_item rt products acc item with
      | inl e => inl e
      | inr acc' => validate_items rt products acc' rest
      end
  end.

(** What the checks in front of the transaction hand over. *)
Record Validated := mkValidated {
  checked_products : list ProductWithVendor;
  checked_vendorId : string;
  checked_vendor : Vendor;
  checked_total : number;
  checked_items : list ValidatedItem
}.

(** Lines 60-164: resolve the products, then the vendor checks, then the
    loop over the items.  [inl] is the reply of an early return. *)
Definition validate_catalog (rt : Runtime) (body : CreateOrderData) (d : DB)
  : Reply + Validated :=
  let productIds := item_productId <$> order_items body in
  match product_findMany d productIds with
  | None => inl (fail 500 "Failed to create order")
  | Some products =>
      if negb (bool_decide (length products = length productIds))
      then inl (fail 400 "Some products are not available")
      else
        let vendorIds := remove_dups (found_vendorId <$> products) in
        if bool_decide (1 < length vendorIds)%nat
        then inl (fail 400 "Cannot order from multiple vendors in one order")
        else
          match head products with
          | None => inl (fail 400 "Invalid vendor data")
          | Some first =>
              let vendor := found_vendor first in
              if negb (bool_decide (vendor_status vendor = APPROVED))
              then inl (fail 400 API_MESSAGES.VENDOR_NOT_APPROVED)
              else
                match validate_items rt products (0%float, [])
                        (order_items body) with
                | inl e => inl (fail 400 e)
                | inr (calculatedTotal, validatedItems) =>
                    inr (mkValidated products (found_vendorId first) vendor
                           calculatedTotal validatedItems)
                end
          end
  end.

(** [Promise.all(validatedItems.map(item => tx.pharmacyBooking.create ...))]:
    the [n]-th fresh id onwards names the lines. *)
Fixpoint create_lines (cuid : nat → string) (n : nat) (bookingId : string)
  (products : list ProductWithVendor) (items : list ValidatedItem) (d : DB)
  : option DB :=
  match items with
  | [] => Some d
  | item :: rest =>
      found ← find_product products (valid_productId item);
      d1 ← pharmacyBooking_create (cuid n)
             (mkPharmacyBooking bookingId
                (product_pharmacyProfileId (found_product found))
                (valid_productId item) (valid_quantity item)
                (valid_unitPrice item) (valid_totalAmount item)
                (valid_requiresDelivery item) (valid_deliveryAddress item)
                PENDING) d;
      create_lines cuid (S n) bookingId products rest d1
  end.

Definition payment_method (body : CreateOrderData) : string :=
  if Js.truthy_string (order_paymentMethod body)
  then default "" (order_paymentMethod body) else "RAZORPAY".

(** The body of [prisma.$transaction]: all three kinds of rows, or [None]
    and nothing.  [cuid] supplies the ids the database generates. *)
Definition create_transaction (cuid : nat → string)
  (user : AuthenticatedUser) (body : CreateOrderData) (v : Validated)
  (commissionAmount vendorAmount : number) (d : DB) : option DB :=
  let bookingId := cuid 0 in
  d1 ← booking_create bookingId
         (mkBooking (user_userId user) (checked_vendorId v) PHARMACY
            (checked_total v) commissionAmount PENDING) d;
  d2 ← create_lines cuid 1 bookingId (checked_products v)
         (checked_items v) d1;
  payment_create bookingId
    (mkPayment (cuid (S (length (checked_items v)))) (checked_vendorId v)
       (checked_total v) commissionAmount vendorAmount
       (payment_method body) PAYMENT_PENDING None None None None None) d2.

Section Handlers.

Context (rt : Runtime) (razorpay : Razorpay).

(** Lines 234-257: after the commit, open a gateway order when the
    method is Razorpay and store its id; a failure is logged and the
    handler goes on. *)
Definition open_gateway_order (user : AuthenticatedUser)
  (body : CreateOrderData) (bookingId : string) (calculatedTotal : number)
  (w : World) : option RazorpayOrder * World :=
  if bool_decide (order_paymentMethod body = Some "RAZORPAY")
     || negb (Js.truthy_string (order_paymentMethod body))
  then
    match PaymentService.createOrder rt razorpay
            (PaymentService.mkPaymentData calculatedTotal "INR" bookingId
               "Customer" (user_phoneNumber user)) w with
    | (Some order, w') =>
        match payment_update bookingId
                (with_razorpayOrderId (rzp_order_id order)) (db w') with
        | Some d => (Some order, set_db d w')
        | None => (Some order, w')
        end
    | (None, w') => (None, w')
    end
  else (None, w).

Definition createOrder (cuid : nat → string) (user : AuthenticatedUser)
  (body : CreateOrderData) (w : World) : Reply * World :=
  if negb (bool_decide (user_role user = CUSTOMER))
  then (fail 403 API_MESSAGES.FORBIDDEN, w)
  else if negb (createOrderSchema rt body)
  then (fail 400 API_MESSAGES.VALIDATION_ERROR, w)
  else
    match validate_catalog rt body (db w) with
    | inl reply => (reply, w)
    | inr v =>
        let calculatedTotal := checked_total v in
        if Js.gt (abs (calculatedTotal - order_totalAmount body))
             0.01%float
        then (fail 400 "Total amount mismatch", w)
        else
          let commissionAmount :=
            calculateCommission calculatedTotal
              (vendor_vendorType (checked_vendor v)) in
          let vendorAmount :=
            calculateVendorAmount calculatedTotal commissionAmount in
          match create_transaction cuid user body v commissionAmount
                  vendorAmount (db w) with
          | None => (fail 500 "Failed to create order", w)
          | Some d1 =>
              let bookingId := cuid 0 in
              let gateway :=
                open_gateway_order user body bookingId calculatedTotal
                  (set_db d1 w) in
              let razorpayOrder := gateway.1 in
              let w3 :=
                NotificationService.sendOrderNotification ORDER_PLACED
                  bookingId (user_userId user)
                  (Some (checked_vendorId v)) gateway.2 in
              (mkReply 201
                 (createSuccessResponse API_MESSAGES.ORDER_CREATED
                    (OrderCreated
                       (mkOrderCreatedData bookingId calculatedTotal
                          commissionAmount PENDING (checked_items v)
                          PAYMENT_PENDING (payment_method body)
                          (rzp_order_id <$> razorpayOrder)))),
               w3)
          end
    end.

Definition notification_of (status : BookingStatus)
  : NotificationTemplate :=
  match status with
  | CONFIRMED => ORDER_CONFIRMED
  | COMPLETED => ORDER_COMPLETED
  | _ => ORDER_CANCELLED
  end.

Definition updateOrderStatus (user : AuthenticatedUser) (id : string)
  (body : UpdateOrderStatusData) (w : World) : Reply * World :=
  if bool_decide (id = "") then (fail 400 "Order ID is required", w)
  else if negb (bool_decide (user_role user = VENDOR))
          || negb (Js.truthy_string (user_vendorId user))
  then (fail 403 API_MESSAGES.FORBIDDEN, w)
  else if negb (updateOrderStatusSchema body)
  then (fail 400 API_MESSAGES.VALIDATION_ERROR, w)
  else
    let status := update_status body in
    match booking_findFirst_vendor (db w) id
            (default "" (user_vendorId user)) with
    | None => (fail 404 API_MESSAGES.ORDER_NOT_FOUND, w)
    | Some order =>
        if bool_decide (booking_status order = COMPLETED)
           || bool_decide (booking_status order = CANCELLED)
        then (fail 400 "Cannot update completed or cancelled orders", w)
        else
          match booking_update id (with_booking_status status) (db w) with
          | None => (fail 500 "Failed to update order status", w)
          | Some d1 =>
              let d2 := pharmacyBooking_updateMany id status d1 in
              let w1 :=
                NotificationService.sendOrderNotification
                  (notification_of status) id (booking_userId order)
                  None (set_db d2 w) in
              (mkReply 200
                 (createSuccessResponse API_MESSAGES.ORDER_UPDATED
                    (OrderStatus id status)), w1)
          end
    end.

Definition cancelOrder (user : AuthenticatedUser) (id : string)
  (w : World) : Reply * World :=
  if bool_decide (id = "") then (fail 400 "Order ID is required", w)
  else if negb (bool_decide (user_role user = CUSTOMER))
  then (fail 403 API_MESSAGES.FORBIDDEN, w)
  else
    match booking_findFirst_user (db w) id (user_userId user) with
    | None => (fail 404 API_MESSAGES.ORDER_NOT_FOUND, w)
    | Some order =>
        let payment := payments (db w) !! id in
        if bool_decide (booking_status order = COMPLETED)
        then (fail 400 "Cannot cancel completed orders", w)
        else if bool_decide (booking_status order = CANCELLED)
        then (fail 400 "Order is already cancelled", w)
        else
          match booking_update id (with_booking_status CANCELLED)
                  (db w) with
          | None => (fail 500 "Failed to cancel order", w)
          | Some d1 =>
              let d2 := pharmacyBooking_updateMany id CANCELLED d1 in
              let w1 := set_db d2 w in
              let w2 :=
                match payment with
                | Some p =>
                    if bool_decide (payment_paymentStatus p = SUCCESS)
                    then
                      (PaymentService.initiateRefund rt razorpay
                         (payment_id p) (Some (payment_totalAmount p))
                         (Some "Customer cancellation") w1).2
                    else w1
                | None => w1
                end in
              (mkReply 200
                 (createSuccessResponse "Order cancelled successfully"
                    (OrderStatus id CANCELLED)), w2)
          end
    end.

End Handlers.

End OrderController.

(** ** Notions the properties are stated with *)

(** The sum of the line totals of a request, [unitPrice * quantity] per
    item, added up from [0] in the order of the items. *)
Definition sum_line_totals (items : list OrderItem) : number :=
  foldl (λ total item,
           (total + item_unitPrice item * item_quantity item)%float)
        0%float items.

Definition terminal (s : BookingStatus) : Prop :=
  s = COMPLETED ∨ s = CANCELLED.

(** The invocations of [initiateRefund] recorded in a trace. *)
Definition refund_calls (t : list Event)
  : list (string * option number * option string) :=
  omap (λ e, match e with
             | InitiateRefund p a r => Some (p, a, r)
             | _ => None
             end) t.

(** [msg] names the product of an item of the request that breaks that
    product's minimum quantity or its price range. *)
Definition line_error (rt : Runtime) (ps : list Prisma.ProductWithVendor)
  (items : list OrderItem) (msg : string) : Prop :=
  ∃ item found,
    item ∈ items
    ∧ OrderController.find_product ps (item_productId item) = Some found
    ∧ let product := Prisma.found_product found in
      (Js.lt (item_quantity item) (product_minOrderQuantity product) = true
       ∧ msg = OrderController.min_quantity_message rt product)
      ∨ ((Js.lt (item_unitPrice item) (product_priceMin product)
          || Js.gt (item_unitPrice item) (product_priceMax product)) = true
         ∧ msg = OrderController.invalid_price_message rt product).

(** Every line of booking [id] carries the status of the booking. *)
Definition status_mirrored (d : DB) (id : string) : Prop :=
  ∀ k l, pharmacyBookings d !! k = Some l → line_bookingId l = id →
         ∃ b, bookings d !! id = Some b ∧ line_status l = booking_status b.







(** ** A small shop, for the examples *)

Module Sample.

Definition digest : string :=
  "9f86d081884c7d659a2feaa0c55ad015a3bf4f1b2b0b822cd15d6c15b0f00a08".

(** A stand-in platform: amounts are whole numbers, so rounding is the
    identity; the digest has the length of a SHA-256 hex digest. *)
Definition rt : Runtime :=
  mkRuntime
    (λ _, "n")
    (λ x, x)
    (λ payload, webhook_event payload)
    (λ _ _, digest)
    (λ s, bool_decide (9 ≤ String.length s)%nat)
    (Some "key_secret")
    (Some "webhook_secret").

Definition gateway_up : Razorpay :=
  mkRazorpay
    (λ o, Some (mkRazorpayOrder "order_1" (options_amount o) "INR"
                  "created"))
    (λ _ _, Some (mkRazorpayRefund "rfnd_1" "processed")).

Definition gateway_down : Razorpay :=
  mkRazorpay (λ _, None) (λ _ _, None).

Definition shop : DB :=
  mkDB
    {[ "cproduct001" :=
         mkProduct "cprofile001" "Paracetamol" true 50 150 1;
       "cproduct002" :=
         mkProduct "cprofile002" "Saffron" true 10 20 5 ]}
    {[ "cprofile001" := mkPharmacyProfile "cvendor0001";
       "cprofile002" := mkPharmacyProfile "cvendor0002" ]}
    {[ "cvendor0001" := mkVendor APPROVED PHARMACY 16;
       "cvendor0002" := mkVendor APPROVED LOCAL_MARKET 10 ]}
    ∅ ∅ None ∅.

Definition opening : World := mkWorld shop [].

Definition customer : AuthenticatedUser :=
  mkUser "cuser000001" "9876543210" CUSTOMER None.

Definition pharmacist : AuthenticatedUser :=
  mkUser "cuser000002" "9876543211" VENDOR (Some "cvendor0001").

Definition cuid (n : nat) : string :=
  match n with
  | 0 => "cbooking001"
  | 1 => "cline000001"
  | _ => "cpayment001"
  end.

Definition two_at_100 : OrderItem :=
  mkOrderItem "cproduct001" 2 100 false None.

(** The request of the end-to-end example. *)
Definition request : CreateOrderData :=
  mkCreateOrderData [two_at_100] 200 None.

(** The same item on two lines. *)
Definition doubled : CreateOrderData :=
  mkCreateOrderData [two_at_100; two_at_100] 400 None.

(** A line below the minimum quantity of five of the second product. *)
Definition too_few : CreateOrderData :=
  mkCreateOrderData [mkOrderItem "cproduct002" 2 15 false None] 30 None.

(** The world after the request was placed with the gateway answering. *)
Definition placed : World :=
  (OrderController.createOrder rt gateway_up cuid customer request
     opening).2.

Definition to (s : BookingStatus) : UpdateOrderStatusData :=
  mkUpdateOrderStatusData s None.



(** The signed confirmation of a checkout. *)
Definition checkout : PaymentService.PaymentVerificationData :=
  PaymentService.mkPaymentVerificationData "pay_1" "order_1" digest.

(** The order paid: the checkout signature verifies. *)
Definition paid : World :=
  (PaymentService.processPaymentSuccess rt "cbooking001" checkout placed).2.

Definition failed : WebhookPayload :=
  mkWebhookPayload "payment.failed"
    (Some (mkPaymentEntity "pay_1" "order_1" (Some "cbooking001")
             (Some "Payment declined")))
    None.

Definition captured : WebhookPayload :=
  mkWebhookPayload "payment.captured"
    (Some (mkPaymentEntity "pay_1" "order_1" (Some "cbooking001") None))
    None.

End Sample.

(** * Properties *)

#[local] Open Scope nat_scope.
#[local] Open Scope list_scope.

(** ** Comparisons of numbers *)

Section NumberFacts.

Lemma SFcompare_antisym x y :
  SFcompare y x = CompOpp <$> SFcompare x y.
Proof.
  destruct x as [s1|s1| |s1 m1 e1], y as [s2|s2| |s2 m2 e2]; simpl;
    try destruct s1; try destruct s2; try reflexivity.
  all: rewrite (Z.compare_antisym e1 e2); destruct (e1 ?= e2)%Z; simpl;
    try reflexivity.
  all: rewrite (Pos.compare_cont_antisym m1 m2 Eq); simpl;
    try rewrite CompOpp_involutive; reflexivity.
Qed.

(** [a <= b] excludes [a > b]. *)
Lemma le_not_gt (a b : number) : Js.le a b = true → Js.gt a b = false.
Proof.
  unfold Js.le, Js.gt. rewrite leb_spec, ltb_spec. unfold SFleb, SFltb.
  rewrite (SFcompare_antisym (Prim2SF a) (Prim2SF b)).
  destruct (SFcompare (Prim2SF a) (Prim2SF b)) as [[]|]; simpl; congruence.
Qed.

End NumberFacts.

(** ** Lists *)

Section ListFacts.

Context {A B : Type} `{EqDecision A}.

Lemma length_remove_dups_le (l : list A) :
  length (remove_dups l) ≤ length l.
Proof.
  induction l as [|x l IH]; simpl; [lia|].
  destruct (decide_rel _ x l); simpl; lia.
Qed.

Lemma length_remove_dups_NoDup (l : list A) :
  length (remove_dups l) = length l → NoDup l.
Proof.
  induction l as [|x l IH]; simpl; [constructor|].
  pose proof (length_remove_dups_le l).
  destruct (decide_rel _ x l); simpl; intros Hlen; [lia|].
  constructor; [done|]. apply IH. lia.
Qed.

Lemma remove_dups_NoDup_id (l : list A) : NoDup l → remove_dups l = l.
Proof.
  induction 1 as [|x l Hx Hl IH]; simpl; [done|].
  destruct (decide_rel _ x l); [done|]. by rewrite IH.
Qed.

Lemma length_omap_le (f : A → option B) (l : list A) :
  length (omap f l) ≤ length l.
Proof.
  induction l as [|x l IH]; csimpl; [lia|].
  destruct (f x); csimpl; lia.
Qed.

Lemma length_omap_eq (f : A → option B) (l : list A) :
  length (omap f l) = length l → ∀ x, x ∈ l → is_Some (f x).
Proof.
  induction l as [|y l IH]; csimpl; intros Hlen x Hx.
  - by apply elem_of_nil in Hx.
  - pose proof (length_omap_le f l).
    destruct (f y) eqn:Hy; csimpl in Hlen; [|lia].
    apply elem_of_cons in Hx as [->|Hx]; [by rewrite Hy|].
    apply IH; [lia|done].
Qed.

End ListFacts.

(** ** Queries *)

Section QueryFacts.

Import Prisma.

Implicit Types (d : DB) (ids : list string).

Lemma include_vendor_Some d row p :
  include_vendor d row = Some p →
  found_id p = row.1 ∧ found_product p = row.2
  ∧ vendors d !! found_vendorId p = Some (found_vendor p).
Proof.
  unfold include_vendor. intros H.
  destruct (pharmacyProfiles d !! _) as [profile|]; simpl in H; [|done].
  destruct (vendors d !! _) as [vendor|] eqn:Hv; simpl in H; [|done].
  by inversion H.
Qed.

(** Every row [product.findMany] answers is an available product of the
    table whose id was asked for, joined with the vendor row it names. *)
Lemma product_findMany_elem d ids ps p :
  product_findMany d ids = Some ps → p ∈ ps →
  found_id p ∈ ids
  ∧ products d !! found_id p = Some (found_product p)
  ∧ product_isAvailable (found_product p) = true
  ∧ vendors d !! found_vendorId p = Some (found_vendor p).
Proof.
  unfold product_findMany. intros Hm Hp.
  apply mapM_Some_1 in Hm.
  apply list_elem_of_lookup in Hp as [i Hi].
  destruct (Forall2_lookup_r _ _ _ _ _ Hm Hi) as (row & Hrow & Hjoin).
  apply list_elem_of_lookup_2, list_elem_of_filter in Hrow as [Hav Hrow].
  apply list_elem_of_omap in Hrow as (id & Hid & Hlook).
  rewrite elem_of_remove_dups in Hid.
  destruct (products d !! id) as [q|] eqn:Hq; simpl in Hlook; [|done].
  inversion Hlook; subst row; simpl in *.
  apply include_vendor_Some in Hjoin as (Hid' & Hprod & Hv). simpl in *.
  rewrite Hid', Hprod. done.
Qed.

Lemma product_findMany_length d ids ps :
  product_findMany d ids = Some ps →
  length ps ≤ length (remove_dups ids).
Proof.
  unfold product_findMany. intros Hm.
  apply mapM_Some_1, Forall2_length in Hm. rewrite <- Hm.
  etrans; [apply length_filter|]. apply length_omap_le.
Qed.

(** When as many rows come back as ids were sent, the ids are pairwise
    distinct and the rows are theirs, in the same order. *)
Lemma product_findMany_all d ids ps :
  product_findMany d ids = Some ps →
  length ps = length ids →
  NoDup ids ∧ found_id <$> ps = ids.
Proof.
  intros Hm Hlen.
  pose proof (product_findMany_length _ _ _ Hm) as Hle.
  pose proof (length_remove_dups_le ids) as Hle'.
  assert (NoDup ids) as Hnd by (apply length_remove_dups_NoDup; lia).
  split; [done|].
  unfold product_findMany in Hm. rewrite (remove_dups_NoDup_id _ Hnd) in Hm.
  apply mapM_Some_1 in Hm.
  pose proof (Forall2_length _ _ _ Hm) as Hl1.
  set (f := λ id : string, (λ p, (id, p)) <$> products d !! id) in *.
  set (P := λ row : string * Product, product_isAvailable row.2 = true) in *.
  assert (length (filter P (omap f ids)) = length (omap f ids)) as Hf.
  { pose proof (length_filter P (omap f ids)).
    pose proof (length_omap_le f ids). lia. }
  assert (length (omap f ids) = length ids) as Ho.
  { pose proof (length_filter P (omap f ids)).
    pose proof (length_omap_le f ids). lia. }
  assert (filter P (omap f ids) = omap f ids) as Hfeq.
  { clear -Hf. induction (omap f ids) as [|x l IH]; [done|].
    rewrite filter_cons in *. destruct (decide (P x)); simpl in *.
    - f_equal. apply IH. lia.
    - pose proof (length_filter P l). lia. }
  rewrite Hfeq in Hm.
  clear -Hm Ho. revert ps Hm.
  induction ids as [|id ids IH]; intros ps Hm; csimpl in *.
  - by inversion Hm.
  - pose proof (length_omap_le f ids).
    destruct (f id) as [row|] eqn:Hrow; csimpl in *; [|lia].
    inversion Hm as [|? p ? ps' Hj Hrest]; subst. simpl.
    apply include_vendor_Some in Hj as (Hid & _ & _).
    unfold f in Hrow. destruct (products d !! id); simpl in Hrow; [|done].
    inversion Hrow; subst row; simpl in *.
    f_equal; [done|]. apply IH; [lia|done].
Qed.

End QueryFacts.

(** ** Placing an order *)

Section CreateOrderFacts.

Import Prisma OrderController.

Context (rt : Runtime).

Implicit Types (d : DB) (w : World) (ps : list ProductWithVendor).

Lemma sendOrderNotification_db type orderId userId vendorId w :
  db (NotificationService.sendOrderNotification type orderId userId
        vendorId w) = db w.
Proof.
  unfold NotificationService.sendOrderNotification.
  destruct type, vendorId; simpl; try done.
  by case_match.
Qed.

Lemma find_product_Some ps id p :
  find_product ps id = Some p → p ∈ ps ∧ found_id p = id.
Proof.
  unfold find_product. intros H. apply find_some in H as [Hin Heq].
  apply bool_decide_eq_true in Heq. split; [|done].
  by apply list_elem_of_In.
Qed.

Lemma find_product_is_Some ps id :
  id ∈ found_id <$> ps → is_Some (find_product ps id).
Proof.
  intros Hin. apply list_elem_of_fmap in Hin as (p & -> & Hp).
  unfold find_product.
  destruct (List.find _ ps) eqn:Hf; [by eexists|].
  apply list_elem_of_In in Hp.
  pose proof (find_none _ _ Hf _ Hp) as Hn. simpl in Hn.
  by rewrite bool_decide_eq_false in Hn.
Qed.

(** The loop adds [unitPrice * quantity] of every item whose product was
    resolved, so with all of them resolved the total is the sum of the
    line totals. *)
Lemma validate_items_total ps acc items total valid :
  (∀ item, item ∈ items →
           is_Some (find_product ps (item_productId item))) →
  validate_items rt ps acc items = inr (total, valid) →
  total = foldl (λ t item,
                   (t + item_unitPrice item * item_quantity item)%float)
                acc.1 items.
Proof.
  revert acc. induction items as [|item items IH]; intros acc Hall Hv.
  - simpl in *. by inversion Hv.
  - simpl in Hv. destruct (validate_item rt ps acc item) as [e|acc'] eqn:Hi;
      [done|].
    rewrite (IH acc'); [|intros; apply Hall; by right|done].
    simpl. f_equal.
    unfold validate_item in Hi.
    destruct (Hall item) as [p Hp]; [by left|]. rewrite Hp in Hi.
    repeat case_match; try done; by inversion Hi.
Qed.

(** An early return of the loop is a [line_error]. *)
Lemma validate_items_inl ps acc items msg :
  validate_items rt ps acc items = inl msg → line_error rt ps items msg.
Proof.
  revert acc. induction items as [|item items IH]; intros acc Hv; [done|].
  simpl in Hv.
  destruct (validate_item rt ps acc item) as [e|acc'] eqn:Hi.
  - inversion Hv; subst e. unfold validate_item in Hi.
    destruct (find_product ps (item_productId item)) as [found|] eqn:Hf;
      [|done].
    exists item, found. split; [by left|]. split; [done|].
    destruct (Js.lt (item_quantity item) _) eqn:Hq.
    { left. split; [done|]. by inversion Hi. }
    destruct (_ || _) eqn:Hp; [|done].
    right. split; [done|]. by inversion Hi.
  - destruct (IH _ Hv) as (it & found & Hin & Hf & Hor).
    exists it, found. split; [by right|]. done.
Qed.

Lemma validate_items_offending ps acc items item found :
  item ∈ items →
  find_product ps (item_productId item) = Some found →
  (Js.lt (item_quantity item)
     (product_minOrderQuantity (found_product found))
   || Js.lt (item_unitPrice item) (product_priceMin (found_product found))
   || Js.gt (item_unitPrice item) (product_priceMax (found_product found)))
  = true →
  ∃ msg, validate_items rt ps acc items = inl msg.
Proof.
  revert acc. induction items as [|it items IH]; intros acc Hin Hf Hbad.
  - by apply elem_of_nil in Hin.
  - simpl. destruct (validate_item rt ps acc it) as [e|acc'] eqn:Hi;
      [by eexists|].
    apply elem_of_cons in Hin as [->|Hin]; [|by apply IH].
    unfold validate_item in Hi. rewrite Hf in Hi.
    rewrite <- orb_assoc in Hbad.
    destruct (Js.lt (item_quantity _) _); [done|]. simpl in Hbad.
    rewrite Hbad in Hi. done.
Qed.

(** [create_lines] touches the lines only: the old ones stay, the new ones
    belong to the booking and are [PENDING], one per validated item. *)
Lemma create_lines_Some cuid n bookingId ps items d d' :
  create_lines cuid n bookingId ps items d = Some d' →
  d' = set_pharmacyBookings (λ _, pharmacyBookings d') d
  ∧ (∀ k l, pharmacyBookings d !! k = Some l →
            pharmacyBookings d' !! k = Some l)
  ∧ (∀ k l, pharmacyBookings d' !! k = Some l →
            pharmacyBookings d !! k = Some l
            ∨ (line_bookingId l = bookingId ∧ line_status l = PENDING))
  ∧ (∀ i item, items !! i = Some item →
       ∃ l, pharmacyBookings d' !! cuid (n + i) = Some l
            ∧ line_bookingId l = bookingId ∧ line_status l = PENDING
            ∧ line_productId l = valid_productId item
            ∧ line_totalAmount l = valid_totalAmount item).
Proof.
  revert n d. induction items as [|item items IH]; intros n d H; simpl in H.
  - inversion H; subst d'. split; [by destruct d|].
    split; [done|]. split; [by left|]. intros i it Hi. done.
  - destruct (find_product ps (valid_productId item)) as [found|];
      simpl in H; [|done].
    unfold pharmacyBooking_create in H.
    destruct (pharmacyBookings d !! cuid n) eqn:Hfresh; simpl in H; [done|].
    apply IH in H as (Heq & Hold & Hnew & Hitems).
    simpl in *. split; [by rewrite Heq at 1|].
    split.
    { intros k l Hk. apply Hold. rewrite lookup_insert_ne; [done|].
      intros <-. by rewrite Hfresh in Hk. }
    split.
    { intros k l Hk. destruct (Hnew _ _ Hk) as [Hk'|]; [|by right].
      destruct (decide (cuid n = k)) as [<-|Hne].
      - rewrite lookup_insert_eq in Hk'. inversion Hk'. by right.
      - rewrite lookup_insert_ne in Hk' by done. by left. }
    intros [|i] it Hi; simpl in Hi.
    + inversion Hi; subst it. rewrite Nat.add_0_r.
      eexists. split; [apply Hold; apply lookup_insert_eq|]. done.
    + destruct (Hitems _ _ Hi) as (l & Hl & ?).
      exists l. split; [|done]. by rewrite <- Nat.add_succ_comm.
Qed.

(** The committed transaction: a fresh booking and a fresh payment under
    the booking's id, the lines of [create_lines], nothing else. *)
Lemma create_transaction_Some cuid user body v commission vendorAmount
    d d1 :
  create_transaction cuid user body v commission vendorAmount d = Some d1 →
  let booking :=
    mkBooking (user_userId user) (checked_vendorId v) PHARMACY
      (checked_total v) commission PENDING in
  let payment :=
    mkPayment (cuid (S (length (checked_items v)))) (checked_vendorId v)
      (checked_total v) commission vendorAmount (payment_method body)
      PAYMENT_PENDING None None None None None in
  bookings d !! cuid 0 = None
  ∧ payments d !! cuid 0 = None
  ∧ d1 = mkDB (products d) (pharmacyProfiles d) (vendors d)
           (<[cuid 0 := booking]> (bookings d)) (pharmacyBookings d1)
           (marketBookings d) (<[cuid 0 := payment]> (payments d))
  ∧ (∀ k l, pharmacyBookings d !! k = Some l →
            pharmacyBookings d1 !! k = Some l)
  ∧ (∀ k l, pharmacyBookings d1 !! k = Some l →
            pharmacyBookings d !! k = Some l
            ∨ (line_bookingId l = cuid 0 ∧ line_status l = PENDING))
  ∧ (∀ i item, checked_items v !! i = Some item →
       ∃ l, pharmacyBookings d1 !! cuid (S i) = Some l
            ∧ line_bookingId l = cuid 0 ∧ line_status l = PENDING
            ∧ line_productId l = valid_productId item
            ∧ line_totalAmount l = valid_totalAmount item).
Proof.
  unfold create_transaction, booking_create, payment_create. intros H.
  destruct (bookings d !! cuid 0) eqn:Hb; simpl in H; [done|].
  destruct (create_lines _ _ _ _ _ _) as [d2|] eqn:Hl; simpl in H; [|done].
  apply create_lines_Some in Hl as (Heq & Hold & Hnew & Hitems).
  destruct (payments d2 !! cuid 0) eqn:Hp; [done|].
  destruct (payment_findUnique_id d2 _); [done|].
  inversion H; subst d1. clear H.
  rewrite Heq in Hp. simpl in *.
  split; [done|]. split; [done|].
  split; [by rewrite Heq at 1|]. done.
Qed.

Lemma two_vendors_counted (l : list string) x y :
  x ∈ l → y ∈ l → x ≠ y → 1 < length (remove_dups l).
Proof.
  intros Hx Hy Hne.
  assert ([x; y] ⊆+ remove_dups l) as Hsub.
  { apply NoDup_submseteq.
    - apply NoDup_cons. split; [by rewrite list_elem_of_singleton|].
      apply NoDup_singleton.
    - intros z Hz. rewrite elem_of_remove_dups.
      apply elem_of_cons in Hz as [->|Hz]; [done|].
      apply list_elem_of_singleton in Hz as ->. done. }
  apply submseteq_length in Hsub. simpl in Hsub. lia.
Qed.

Lemma two_vendors_found (l : list string) :
  1 < length (remove_dups l) → ∃ x y, x ∈ l ∧ y ∈ l ∧ x ≠ y.
Proof.
  intros Hlen. pose proof (NoDup_remove_dups l) as Hnd.
  destruct (remove_dups l) as [|x [|y rest]] eqn:Hl; simpl in Hlen;
    [lia..|].
  assert (x ∈ remove_dups l ∧ y ∈ remove_dups l) as [Hx Hy].
  { rewrite Hl. split; [by left|right; by left]. }
  rewrite elem_of_remove_dups in Hx, Hy.
  exists x, y. repeat split; [done..|].
  apply NoDup_cons in Hnd as [Hnotin _]. intros ->. apply Hnotin. by left.
Qed.

(** What a request that passed lines 60-164 is known to satisfy. *)
Lemma validate_catalog_inr body d v :
  validate_catalog rt body d = inr v →
  let ids := item_productId <$> order_items body in
  product_findMany d ids = Some (checked_products v)
  ∧ found_id <$> checked_products v = ids
  ∧ (∀ p, p ∈ checked_products v → found_vendorId p = checked_vendorId v)
  ∧ vendors d !! checked_vendorId v = Some (checked_vendor v)
  ∧ vendor_status (checked_vendor v) = APPROVED
  ∧ validate_items rt (checked_products v) (0%float, []) (order_items body)
    = inr (checked_total v, checked_items v)
  ∧ checked_total v = sum_line_totals (order_items body).
Proof.
  intros H ids. unfold validate_catalog in H. fold ids in H.
  destruct (product_findMany d ids) as [ps|] eqn:Hfind; [|done].
  destruct (bool_decide (length ps = length ids)) eqn:Hlen; simpl in H;
    [|done].
  apply bool_decide_eq_true in Hlen.
  destruct (bool_decide (1 < _)) eqn:Hmulti; [done|].
  apply bool_decide_eq_false in Hmulti.
  destruct (head ps) as [first|] eqn:Hhead; [|done].
  destruct (bool_decide (vendor_status _ = APPROVED)) eqn:Happr;
    simpl in H; [|done].
  apply bool_decide_eq_true in Happr.
  destruct (validate_items rt ps _ _) as [e|[total valid]] eqn:Hitems;
    [done|].
  inversion H; subst v; simpl. clear H.
  destruct (product_findMany_all _ _ _ Hfind Hlen) as [Hnd Hids].
  apply head_Some_elem_of in Hhead as Hfirst.
  split; [done|]. split; [done|].
  split.
  { intros p Hp. destruct (decide (found_vendorId p = found_vendorId first))
      as [|Hne]; [done|].
    exfalso. apply Hmulti.
    apply (two_vendors_counted _ (found_vendorId p) (found_vendorId first));
      [by apply list_elem_of_fmap_2..|done]. }
  split; [by apply (product_findMany_elem _ _ _ _ Hfind Hfirst)|].
  split; [done|]. split; [done|].
  apply (validate_items_total _ _ _ _ _) in Hitems; [done|].
  intros item Hitem. apply find_product_is_Some. rewrite Hids.
  by apply list_elem_of_fmap_2.
Qed.

Lemma validate_catalog_inl body d reply :
  validate_catalog rt body d = inl reply →
  ∃ code msg, reply = fail code msg.
Proof.
  unfold validate_catalog. intros H.
  repeat case_match; inversion H; by do 2 eexists.
Qed.

Section Gateway.

Context (razorpay : Razorpay).

(** The gateway step leaves the database as it is, or stores the
    gateway's order id in the payment of the booking. *)
Lemma open_gateway_order_db user body bookingId total w :
  let r := open_gateway_order rt razorpay user body bookingId total w in
  db r.2 = db w
  ∨ ∃ order p,
      r.1 = Some order ∧ payments (db w) !! bookingId = Some p
      ∧ db r.2 = set_payments
                   <[bookingId := with_razorpayOrderId
                                    (rzp_order_id order) p]> (db w).
Proof.
  unfold open_gateway_order, PaymentService.createOrder, payment_update.
  simpl. destruct (_ || _); [|by left].
  destruct (orders_create razorpay _) as [order|]; simpl; [|by left].
  destruct (payments (db w) !! bookingId) as [p|] eqn:Hp; simpl;
    [|by left].
  right. eexists _, p. done.
Qed.

Lemma open_gateway_order_failed user body bookingId total w :
  orders_create razorpay
    (PaymentService.order_options rt
       (PaymentService.mkPaymentData total "INR" bookingId "Customer"
          (user_phoneNumber user))) = None →
  let r := open_gateway_order rt razorpay user body bookingId total w in
  r.1 = None ∧ db r.2 = db w.
Proof.
  unfold open_gateway_order, PaymentService.createOrder. intros Hdown.
  simpl. rewrite Hdown. by destruct (_ || _).
Qed.

(** [createOrder] either answers an error and leaves the world alone, or
    commits the transaction and answers 201. *)
Lemma createOrder_cases cuid user body w :
  (∃ code msg,
      createOrder rt razorpay cuid user body w = (fail code msg, w))
  ∨ (∃ v d1,
      user_role user = CUSTOMER
      ∧ createOrderSchema rt body = true
      ∧ validate_catalog rt body (db w) = inr v
      ∧ Js.gt (abs (checked_total v - order_totalAmount body))
          0.01%float = false
      ∧ create_transaction cuid user body v
          (calculateCommission (checked_total v)
             (vendor_vendorType (checked_vendor v)))
          (calculateVendorAmount (checked_total v)
             (calculateCommission (checked_total v)
                (vendor_vendorType (checked_vendor v)))) (db w) = Some d1
      ∧ let gateway :=
          open_gateway_order rt razorpay user body (cuid 0)
            (checked_total v) (set_db d1 w) in
        createOrder rt razorpay cuid user body w
        = (mkReply 201
             (createSuccessResponse API_MESSAGES.ORDER_CREATED
                (OrderCreated
                   (mkOrderCreatedData (cuid 0) (checked_total v)
                      (calculateCommission (checked_total v)
                         (vendor_vendorType (checked_vendor v)))
                      PENDING (checked_items v) PAYMENT_PENDING
                      (payment_method body)
                      (rzp_order_id <$> gateway.1)))),
           NotificationService.sendOrderNotification ORDER_PLACED
             (cuid 0) (user_userId user) (Some (checked_vendorId v))
             gateway.2)).
Proof.
  unfold createOrder.
  destruct (bool_decide (user_role user = CUSTOMER)) eqn:Hrole; simpl;
    [|left; by do 2 eexists].
  apply bool_decide_eq_true in Hrole.
  destruct (createOrderSchema rt body) eqn:Hschema; simpl;
    [|left; by do 2 eexists].
  destruct (validate_catalog rt body (db w)) as [reply|v] eqn:Hcat.
  { left. apply validate_catalog_inl in Hcat as (code & msg & ->).
    by do 2 eexists. }
  destruct (Js.gt _ _) eqn:Htotal; [left; by do 2 eexists|].
  destruct (create_transaction _ _ _ _ _ _ _) as [d1|] eqn:Htx;
    [|left; by do 2 eexists].
  right. exists v, d1. done.
Qed.

End Gateway.

End CreateOrderFacts.

Section OrderPlacement.

Import Prisma OrderController.

Context (rt : Runtime) (razorpay : Razorpay).

(** A reply that is not a success comes with the world it started from:
    no order, line or payment row is written. *)
Lemma createOrder_refused_writes_nothing cuid user body w reply w' :
  createOrder rt razorpay cuid user body w = (reply, w') →
  success (reply_json reply) = false →
  w' = w ∧ ∃ code msg, reply = fail code msg.
Proof.
  intros Hrun Hfail.
  destruct (createOrder_cases rt razorpay cuid user body w)
    as [(code & msg & Heq)|(v & d1 & _ & _ & _ & _ & _ & Heq)];
    rewrite Heq in Hrun; inversion Hrun; subst; [|done].
  split; [done|]. by do 2 eexists.
Qed.

(** The rows of a committed order after the gateway step and the
    notifications: the booking of the transaction, and its payment with at
    most the gateway order id added. *)
Lemma placed_order_rows cuid user body v commission vendorAmount w d1 :
  create_transaction cuid user body v commission vendorAmount (db w)
  = Some d1 →
  let w' :=
    NotificationService.sendOrderNotification ORDER_PLACED (cuid 0)
      (user_userId user) (Some (checked_vendorId v))
      (open_gateway_order rt razorpay user body (cuid 0) (checked_total v)
         (set_db d1 w)).2 in
  bookings (db w') !! cuid 0
  = Some (mkBooking (user_userId user) (checked_vendorId v) PHARMACY
            (checked_total v) commission PENDING)
  ∧ pharmacyBookings (db w') = pharmacyBookings d1
  ∧ ∃ payment,
      payments (db w') !! cuid 0 = Some payment
      ∧ payment_totalAmount payment = checked_total v
      ∧ payment_commissionAmount payment = commission
      ∧ payment_vendorAmount payment = vendorAmount
      ∧ payment_paymentStatus payment = PAYMENT_PENDING.
Proof.
  intros Htx w'. subst w'. rewrite sendOrderNotification_db.
  apply create_transaction_Some in Htx as (_ & _ & Hd1 & _).
  destruct (open_gateway_order_db rt razorpay user body (cuid 0)
              (checked_total v) (set_db d1 w))
    as [Heq|(order & p & _ & Hp & Heq)]; rewrite Heq; simpl.
  - rewrite Hd1. simpl. rewrite !lookup_insert_eq.
    split; [done|]. split; [done|]. by eexists.
  - rewrite Hd1 in Hp |- *. simpl in *. rewrite lookup_insert_eq in Hp.
    inversion Hp; subst p. rewrite !lookup_insert_eq.
    split; [done|]. split; [done|]. by eexists.
Qed.

(** C1. Every order [createOrder] creates carries the commission
    [amount * rate / 100], with rate 10 for a [LOCAL_MARKET] vendor and 16
    for every other vendor type, and a payment whose vendor amount is the
    total minus the commission.  For the single item of quantity 2 at unit
    price 100 with declared total 200 against an approved vendor that is
    not [LOCAL_MARKET], the order has total 200, commission 32, vendor
    amount 168 and status [PENDING], and commission plus vendor amount is
    exactly the total. *)
Theorem createOrder_commission_split cuid user body w reply w' :
  createOrder rt razorpay cuid user body w = (reply, w') →
  success (reply_json reply) = true →
  ∃ created booking payment vendor,
    reply = mkReply 201
              (createSuccessResponse API_MESSAGES.ORDER_CREATED
                 (OrderCreated created))
    ∧ bookings (db w') !! created_orderId created = Some booking
    ∧ payments (db w') !! created_orderId created = Some payment
    ∧ vendors (db w) !! booking_vendorId booking = Some vendor
    ∧ vendor_status vendor = APPROVED
    ∧ booking_status booking = PENDING
    ∧ created_status created = PENDING
    ∧ created_totalAmount created = booking_totalAmount booking
    ∧ created_commissionAmount created = booking_commissionAmount booking
    ∧ booking_totalAmount booking = sum_line_totals (order_items body)
    ∧ booking_commissionAmount booking
      = (booking_totalAmount booking
         * (if decide (vendor_vendorType vendor = LOCAL_MARKET)
            then 10 else 16) / 100)%float
    ∧ payment_totalAmount payment = booking_totalAmount booking
    ∧ payment_commissionAmount payment = booking_commissionAmount booking
    ∧ payment_vendorAmount payment
      = (booking_totalAmount booking - booking_commissionAmount booking)%float
    ∧ (∀ item,
         order_items body = [item] →
         item_quantity item = 2%float → item_unitPrice item = 100%float →
         order_totalAmount body = 200%float →
         vendor_vendorType vendor ≠ LOCAL_MARKET →
         booking_totalAmount booking = 200%float
         ∧ booking_commissionAmount booking = 32%float
         ∧ payment_vendorAmount payment = 168%float
         ∧ (booking_commissionAmount booking
            + payment_vendorAmount payment)%float
           = booking_totalAmount booking).
Proof.
  intros Hrun Hok.
  destruct (createOrder_cases rt razorpay cuid user body w)
    as [(code & msg & Heq)|(v & d1 & _ & _ & Hcat & _ & Htx & Heq)];
    rewrite Heq in Hrun; inversion Hrun; subst; [done|].
  clear Hrun Heq Hok.
  apply validate_catalog_inr in Hcat
    as (_ & _ & _ & Hvendor & Happr & _ & Hsum).
  destruct (placed_order_rows _ _ _ _ _ _ _ _ Htx)
    as (Hbooking & _ & payment & Hpay & Hpt & Hpc & Hpv & _).
  eexists _, _, payment, (checked_vendor v). simpl.
  repeat (split; [done|]).
  intros item Hitems Hq Hp Hdeclared Hnot.
  rewrite Hpv, Hsum, Hitems. unfold sum_line_totals. simpl.
  rewrite Hq, Hp. unfold calculateVendorAmount, calculateCommission.
  destruct (decide (vendor_vendorType (checked_vendor v) = LOCAL_MARKET));
    [done|].
  repeat split.
Qed.

(** C9. A gateway failure after the commit is not fatal: when the request
    passed validation and the transaction committed, and the gateway then
    refuses to create the payment order, the caller still gets the 201
    success reply, the database is exactly the committed one (booking,
    lines and payment are there), the order is [PENDING] and the payment
    carries no gateway order id. *)
Theorem createOrder_gateway_failure_not_fatal cuid user body w v d1 :
  user_role user = CUSTOMER →
  createOrderSchema rt body = true →
  validate_catalog rt body (db w) = inr v →
  Js.gt (abs (checked_total v - order_totalAmount body)) 0.01%float = false →
  create_transaction cuid user body v
    (calculateCommission (checked_total v)
       (vendor_vendorType (checked_vendor v)))
    (calculateVendorAmount (checked_total v)
       (calculateCommission (checked_total v)
          (vendor_vendorType (checked_vendor v)))) (db w) = Some d1 →
  orders_create razorpay
    (PaymentService.order_options rt
       (PaymentService.mkPaymentData (checked_total v) "INR" (cuid 0)
          "Customer" (user_phoneNumber user))) = None →
  ∃ created booking payment w',
    createOrder rt razorpay cuid user body w
    = (mkReply 201
         (createSuccessResponse API_MESSAGES.ORDER_CREATED
            (OrderCreated created)), w')
    ∧ db w' = d1
    ∧ created_orderId created = cuid 0
    ∧ created_status created = PENDING
    ∧ created_razorpayOrderId created = None
    ∧ bookings d1 !! cuid 0 = Some booking
    ∧ booking_status booking = PENDING
    ∧ payments d1 !! cuid 0 = Some payment
    ∧ payment_razorpayOrderId payment = None
    ∧ (∀ i item, checked_items v !! i = Some item →
         ∃ l, pharmacyBookings d1 !! cuid (S i) = Some l
              ∧ line_bookingId l = cuid 0 ∧ line_status l = PENDING).
Proof.
  intros Hrole Hschema Hcat Htotal Htx Hdown.
  destruct (open_gateway_order_failed rt razorpay user body (cuid 0)
              (checked_total v) (set_db d1 w) Hdown) as [Hnone Hdb].
  unfold createOrder.
  rewrite Hrole, Hschema, Hcat, Htotal, Htx. simpl.
  rewrite Hnone. simpl.
  apply create_transaction_Some in Htx as (_ & _ & Hd1 & _ & _ & Hlines).
  eexists _, _, _, _. split; [reflexivity|].
  rewrite sendOrderNotification_db, Hdb. simpl.
  split; [done|]. do 3 (split; [done|]).
  rewrite Hd1. simpl. rewrite !lookup_insert_eq.
  split; [done|]. split; [done|]. split; [done|]. split; [done|].
  intros i item Hi. destruct (Hlines i item Hi) as (l & Hl & Hb & Hs & _).
  exists l. rewrite Hd1 in Hl. done.
Qed.

End OrderPlacement.

Section CatalogValidation.

Import Prisma OrderController.

Context (rt : Runtime) (razorpay : Razorpay).

(** C4. When the sum of the line totals and the declared total differ by
    more than 0.01, the call fails and writes nothing, and a request that
    got through the catalog checks is answered "Total amount mismatch";
    when they differ by at most 0.01, the reply is never that error. *)
Theorem createOrder_total_tolerance cuid user body w :
  let difference :=
    abs (sum_line_totals (order_items body) - order_totalAmount body) in
  (Js.gt difference 0.01%float = true →
     (∃ code msg,
         createOrder rt razorpay cuid user body w = (fail code msg, w))
     ∧ (user_role user = CUSTOMER → createOrderSchema rt body = true →
        (∃ v, validate_catalog rt body (db w) = inr v) →
        createOrder rt razorpay cuid user body w
        = (fail 400 "Total amount mismatch", w)))
  ∧ (Js.le difference 0.01%float = true →
       (createOrder rt razorpay cuid user body w).1
       ≠ fail 400 "Total amount mismatch").
Proof.
  intros difference. subst difference. split.
  - intros Hover. split.
    + destruct (createOrder_cases rt razorpay cuid user body w)
        as [Hfail|(v & d1 & _ & _ & Hcat & Htotal & _)]; [done|].
      apply validate_catalog_inr in Hcat as (_ & _ & _ & _ & _ & _ & Hsum).
      rewrite Hsum, Hover in Htotal. done.
    + intros Hrole Hschema [v Hcat]. unfold createOrder.
      rewrite Hrole, Hschema, Hcat. simpl.
      apply validate_catalog_inr in Hcat as (_ & _ & _ & _ & _ & _ & Hsum).
      by rewrite Hsum, Hover.
  - intros Hwithin%le_not_gt. unfold createOrder.
    destruct (negb (bool_decide _)); [done|].
    destruct (negb (createOrderSchema _ _)); [done|].
    destruct (validate_catalog rt body (db w)) as [reply|v] eqn:Hcat.
    + simpl. unfold validate_catalog in Hcat.
      repeat case_match; inversion Hcat; subst; try done.
      intros Heq. inversion Heq as [Hmsg]. subst.
      match goal with
      | H : validate_items _ _ _ _ = inl _ |- _ =>
          apply validate_items_inl in H
            as (item & found & _ & _ & [[_ Hm]|[_ Hm]]);
          unfold min_quantity_message, invalid_price_message in Hm;
          simpl in Hm; discriminate Hm
      end.
    + apply validate_catalog_inr in Hcat as (_ & _ & _ & _ & _ & _ & Hsum).
      rewrite Hsum, Hwithin. by case_match.
Qed.

(** C5. Catalog validation is all or nothing: when the resolved products
    belong to more than one vendor, or their vendor is not approved, or a
    line orders less than its product's minimum quantity, or a line's unit
    price is outside the product's price range, the request is answered
    with a 400 error and the world is left as it was.  The error is that of
    the first check that fails: unresolved products, then several vendors,
    then a vendor that is not approved, then the first line that breaks its
    product's constraint, whose message names that product. *)
Theorem createOrder_all_or_nothing cuid user body w ps :
  user_role user = CUSTOMER →
  createOrderSchema rt body = true →
  product_findMany (db w) (item_productId <$> order_items body) = Some ps →
  (∃ p q, p ∈ ps ∧ q ∈ ps ∧ found_vendorId p ≠ found_vendorId q)
  ∨ (∃ p, p ∈ ps ∧ vendor_status (found_vendor p) ≠ APPROVED)
  ∨ (∃ item found,
       item ∈ order_items body
       ∧ find_product ps (item_productId item) = Some found
       ∧ (Js.lt (item_quantity item)
            (product_minOrderQuantity (found_product found)) = true
          ∨ Js.lt (item_unitPrice item)
              (product_priceMin (found_product found)) = true
          ∨ Js.gt (item_unitPrice item)
              (product_priceMax (found_product found)) = true)) →
  ∃ msg,
    createOrder rt razorpay cuid user body w = (fail 400 msg, w)
    ∧ let resolved := length ps = length (order_items body) in
      let one_vendor :=
        ∀ p q, p ∈ ps → q ∈ ps → found_vendorId p = found_vendorId q in
      let approved :=
        ∀ p, p ∈ ps → vendor_status (found_vendor p) = APPROVED in
      (¬ resolved → msg = "Some products are not available")
      ∧ (resolved → ¬ one_vendor →
         msg = "Cannot order from multiple vendors in one order")
      ∧ (resolved → one_vendor → ¬ approved →
         msg = API_MESSAGES.VENDOR_NOT_APPROVED)
      ∧ (resolved → one_vendor → approved →
         line_error rt ps (order_items body) msg).
Proof.
  intros Hrole Hschema Hfind Hbad.
  unfold createOrder. rewrite Hrole, Hschema. simpl.
  unfold validate_catalog. rewrite Hfind. rewrite length_fmap.
  destruct (bool_decide (length ps = _)) eqn:Hlen; simpl.
  2:{ apply bool_decide_eq_false in Hlen.
      eexists; split; [done|]. by repeat split. }
  apply bool_decide_eq_true in Hlen.
  destruct (bool_decide (1 < _)) eqn:Hmulti.
  { apply bool_decide_eq_true, two_vendors_found in Hmulti
      as (x & y & Hx & Hy & Hxy).
    apply list_elem_of_fmap in Hx as (p & -> & Hp).
    apply list_elem_of_fmap in Hy as (q & -> & Hq).
    eexists; split; [done|]. repeat split; try done.
    all: intros _ Hsame; by specialize (Hsame p q Hp Hq). }
  apply bool_decide_eq_false in Hmulti.
  assert (∀ p q, p ∈ ps → q ∈ ps → found_vendorId p = found_vendorId q)
    as Hsame.
  { intros p q Hp Hq.
    destruct (decide (found_vendorId p = found_vendorId q)) as [|Hne];
      [done|].
    exfalso. apply Hmulti.
    apply (two_vendors_counted _ (found_vendorId p) (found_vendorId q));
      [by apply list_elem_of_fmap_2..|done]. }
  destruct Hbad as [(p & q & Hp & Hq & Hne)|Hbad];
    [by specialize (Hsame p q Hp Hq)|].
  destruct (head ps) as [first|] eqn:Hhead.
  2:{ exfalso. apply head_None in Hhead. subst ps.
      destruct Hbad as [(p & Hp & _)|(item & found & _ & Hf & _)].
      - by apply elem_of_nil in Hp.
      - done. }
  apply head_Some_elem_of in Hhead as Hfirst.
  destruct (bool_decide (vendor_status _ = APPROVED)) eqn:Happr; simpl.
  2:{ apply bool_decide_eq_false in Happr.
      eexists; split; [done|]. repeat split; try done.
      intros _ _ Hall. by specialize (Hall first Hfirst). }
  apply bool_decide_eq_true in Happr.
  assert (∀ p, p ∈ ps → vendor_status (found_vendor p) = APPROVED) as Hall.
  { intros p Hp.
    destruct (product_findMany_elem _ _ _ _ Hfind Hp) as (_ & _ & _ & Hv).
    destruct (product_findMany_elem _ _ _ _ Hfind Hfirst)
      as (_ & _ & _ & Hv').
    rewrite (Hsame p first Hp Hfirst), Hv' in Hv. by inversion Hv. }
  destruct Hbad as [(p & Hp & Hna)|(item & found & Hin & Hf & Hline)];
    [by specialize (Hall p Hp)|].
  assert ((Js.lt (item_quantity item)
             (product_minOrderQuantity (found_product found))
           || Js.lt (item_unitPrice item)
                (product_priceMin (found_product found))
           || Js.gt (item_unitPrice item)
                (product_priceMax (found_product found))) = true)
    as Hany.
  { destruct Hline as [->|[->| ->]]; by rewrite ?orb_true_r. }
  destruct (validate_items_offending rt ps (0%float, []) _ _ _ Hin Hf Hany)
    as [msg Hmsg].
  rewrite Hmsg. exists msg. split; [done|].
  repeat split; try done.
  intros _ _ _. by apply validate_items_inl in Hmsg.
Qed.

(** C10. A request that lists the same product id on two lines is always
    answered "Some products are not available" and writes nothing,
    whatever the product, its availability and the lines' quantities and
    prices: [findMany] answers each product once, and the count of rows is
    compared with the count of requested ids. *)
Theorem createOrder_duplicate_product cuid user body w i j a b :
  user_role user = CUSTOMER →
  createOrderSchema rt body = true →
  is_Some (product_findMany (db w) (item_productId <$> order_items body)) →
  order_items body !! i = Some a →
  order_items body !! j = Some b →
  i ≠ j →
  item_productId a = item_productId b →
  createOrder rt razorpay cuid user body w
  = (fail 400 "Some products are not available", w).
Proof.
  intros Hrole Hschema [ps Hfind] Hi Hj Hij Hsame.
  unfold createOrder. rewrite Hrole, Hschema. simpl.
  unfold validate_catalog. rewrite Hfind.
  destruct (bool_decide (length ps = _)) eqn:Hlen; simpl; [|done].
  exfalso. apply bool_decide_eq_true in Hlen.
  destruct (product_findMany_all _ _ _ Hfind Hlen) as [Hnd _].
  apply Hij. apply (NoDup_lookup _ i j (item_productId a) Hnd).
  - by rewrite list_lookup_fmap, Hi.
  - by rewrite list_lookup_fmap, Hj, Hsame.
Qed.

End CatalogValidation.

(** ** Status updates and cancellation *)

Section Lifecycle.

Import Prisma OrderController.

Context (rt : Runtime).

Implicit Types (d : DB) (w : World).

Lemma refund_calls_app t1 t2 :
  refund_calls (t1 ++ t2) = refund_calls t1 ++ refund_calls t2.
Proof. unfold refund_calls. apply omap_app. Qed.

(** [initiateRefund] records exactly one invocation, and whatever happens
    inside it reaches the [payments] table only. *)
Lemma initiateRefund_effect razorpay paymentId amount reason w :
  let r := PaymentService.initiateRefund rt razorpay paymentId amount
             reason w in
  refund_calls (trace r.2)
  = refund_calls (trace w) ++ [(paymentId, amount, reason)]
  ∧ bookings (db r.2) = bookings (db w)
  ∧ pharmacyBookings (db r.2) = pharmacyBookings (db w).
Proof.
  unfold PaymentService.initiateRefund, payment_update_id. simpl.
  destruct (payment_findUnique_id (db w) paymentId) as [[bookingId p]|];
    simpl; [|by rewrite refund_calls_app].
  repeat case_match; simpl; simplify_eq/=;
    rewrite ?refund_calls_app; simpl; by rewrite ?app_nil_r.
Qed.

(** C7. A successful [cancelOrder] invokes the refund exactly once, with
    the payment's total amount, when the payment of the order is
    [SUCCESS], and not at all when there is no payment or it has another
    status.  Cancelling again, any number of times and whatever the
    gateway does, is answered "Order is already cancelled", issues no
    further refund and leaves the world as it is. *)
Theorem cancelOrder_refunds_once razorpay user id w reply w' :
  cancelOrder rt razorpay user id w = (reply, w') →
  success (reply_json reply) = true →
  (∀ p, payments (db w) !! id = Some p →
        payment_paymentStatus p = SUCCESS →
        refund_calls (trace w')
        = refund_calls (trace w)
          ++ [(payment_id p, Some (payment_totalAmount p),
               Some "Customer cancellation")])
  ∧ (payments (db w) !! id = None
     ∨ (∃ p, payments (db w) !! id = Some p
             ∧ payment_paymentStatus p ≠ SUCCESS) →
     refund_calls (trace w') = refund_calls (trace w))
  ∧ (∀ razorpay',
       cancelOrder rt razorpay' user id w'
       = (fail 400 "Order is already cancelled", w'))
  ∧ (∀ n, Nat.iter n (λ w, (cancelOrder rt razorpay user id w).2) w' = w').
Proof.
  intros Hrun Hok. unfold cancelOrder in Hrun.
  destruct (bool_decide (id = "")) eqn:Hid; [by inversion Hrun; subst|].
  destruct (bool_decide (user_role user = CUSTOMER)) eqn:Hrole;
    simpl in Hrun; [|by inversion Hrun; subst].
  destruct (booking_findFirst_user (db w) id (user_userId user))
    as [order|] eqn:Hfind; [|by inversion Hrun; subst].
  destruct (bool_decide (booking_status order = COMPLETED));
    [by inversion Hrun; subst|].
  destruct (bool_decide (booking_status order = CANCELLED));
    [by inversion Hrun; subst|].
  unfold booking_update in Hrun.
  unfold booking_findFirst_user in Hfind.
  destruct (bookings (db w) !! id) as [b|] eqn:Hb; simpl in *; [|done].
  destruct (decide (booking_userId b = user_userId user)) as [Howner|];
    [|done].
  inversion Hfind; subst b. clear Hfind.
  inversion Hrun as [[Hreply Hw']]. clear Hrun Hok Hreply.
  set (w1 := set_db _ w) in *.
  assert (bookings (db w1) !! id = Some (with_booking_status CANCELLED order))
    as Hb1 by (simpl; apply lookup_insert_eq).
  assert (refund_calls (trace w')
          = refund_calls (trace w)
            ++ match payments (db w) !! id with
               | Some p =>
                   if bool_decide (payment_paymentStatus p = SUCCESS)
                   then [(payment_id p, Some (payment_totalAmount p),
                          Some "Customer cancellation")]
                   else []
               | None => []
               end
          ∧ bookings (db w') = bookings (db w1)) as [Hcalls Hsame].
  { subst w'.
    destruct (payments (db w) !! id) as [p|];
      [|by rewrite app_nil_r].
    destruct (bool_decide (payment_paymentStatus p = SUCCESS));
      [|by rewrite app_nil_r].
    destruct (initiateRefund_effect razorpay (payment_id p)
                (Some (payment_totalAmount p))
                (Some "Customer cancellation") w1) as (Hc & Hbk & _).
    split; [apply Hc|apply Hbk]. }
  assert (∀ razorpay',
            cancelOrder rt razorpay' user id w'
            = (fail 400 "Order is already cancelled", w')) as Hagain.
  { intros razorpay'. unfold cancelOrder.
    rewrite Hid, Hrole. simpl. unfold booking_findFirst_user.
    rewrite Hsame, Hb1. simpl.
    destruct (decide (booking_userId order = user_userId user)); done. }
  rewrite Hw'. split.
  { intros p Hp Hs. rewrite Hcalls, Hp. by rewrite bool_decide_eq_true_2. }
  split.
  { intros [Hnone|(p & Hp & Hs)]; rewrite Hcalls.
    - by rewrite Hnone, app_nil_r.
    - by rewrite Hp, bool_decide_eq_false_2, app_nil_r. }
  split; [done|].
  induction n as [|n IH]; simpl; [done|].
  by rewrite IH, Hagain.
Qed.

(** *** Orders in a terminal state *)






End Lifecycle.

(** ** Settlement *)

Section Settlement.

Import Prisma OrderController.

Context (rt : Runtime).

(** The settlement handlers never write a line of [pharmacy_bookings]:
    the third update goes to the [marketBooking] model. *)
Lemma processPaymentFailure_lines bookingId w :
  pharmacyBookings (db (PaymentService.processPaymentFailure bookingId w).2)
  = pharmacyBookings (db w).
Proof.
  unfold PaymentService.processPaymentFailure, payment_update,
    booking_update, marketBooking_updateMany.
  repeat (case_match; simplify_option_eq; try done).
Qed.

Lemma processPaymentSuccess_lines bookingId data w :
  pharmacyBookings
    (db (PaymentService.processPaymentSuccess rt bookingId data w).2)
  = pharmacyBookings (db w).
Proof.
  unfold PaymentService.processPaymentSuccess, payment_update,
    booking_update, marketBooking_updateMany.
  repeat (case_match; simplify_option_eq; try done).
Qed.

(** Neither settlement handler looks at the status the order has. *)
Lemma processPaymentFailure_cancels bookingId w b p :
  bookings (db w) !! bookingId = Some b →
  payments (db w) !! bookingId = Some p →
  bookings (db (PaymentService.processPaymentFailure bookingId w).2)
    !! bookingId
  = Some (with_booking_status CANCELLED b).
Proof.
  intros Hb Hp.
  unfold PaymentService.processPaymentFailure, payment_update,
    booking_update, marketBooking_updateMany.
  rewrite Hp. simpl. rewrite Hb. simpl.
  destruct (marketBookings (db w)); simpl; apply lookup_insert_eq.
Qed.

Lemma processPaymentSuccess_confirms bookingId data w b p :
  PaymentService.verifyPaymentSignature rt data = true →
  bookings (db w) !! bookingId = Some b →
  payments (db w) !! bookingId = Some p →
  bookings (db (PaymentService.processPaymentSuccess rt bookingId data w).2)
    !! bookingId
  = Some (with_booking_status CONFIRMED b).
Proof.
  intros Hsig Hb Hp.
  unfold PaymentService.processPaymentSuccess, payment_update,
    booking_update, marketBooking_updateMany.
  rewrite Hsig, Hp. simpl. rewrite Hb. simpl.
  destruct (marketBookings (db w)); simpl; apply lookup_insert_eq.
Qed.

(** A status update by the owning vendor on an order that is not terminal
    is carried out for every target the schema lets through; the
    transition table is not consulted. *)
Lemma updateOrderStatus_accepts user id body w order :
  id ≠ "" → user_role user = VENDOR →
  user_vendorId user = Some (booking_vendorId order) →
  booking_vendorId order ≠ "" →
  updateOrderStatusSchema body = true →
  bookings (db w) !! id = Some order →
  ¬ terminal (booking_status order) →
  ∃ w',
    updateOrderStatus user id body w
    = (mkReply 200
         (createSuccessResponse API_MESSAGES.ORDER_UPDATED
            (OrderStatus id (update_status body))), w')
    ∧ bookings (db w') !! id
      = Some (with_booking_status (update_status body) order)
    ∧ status_mirrored (db w') id.
Proof.
  intros Hid Hrole Hvendor Hne Hschema Hb Hnt. unfold updateOrderStatus.
  rewrite bool_decide_eq_false_2 by done.
  rewrite Hrole, Hvendor, Hschema. simpl.
  rewrite (bool_decide_eq_false_2 _ Hne). simpl.
  unfold booking_findFirst_vendor, booking_update. rewrite Hb. simpl.
  rewrite decide_True by done.
  rewrite !bool_decide_eq_false_2 by (intros ?; apply Hnt; by constructor).
  simpl. eexists. split; [done|]. rewrite sendOrderNotification_db. simpl.
  rewrite lookup_insert_eq. split; [done|].
  intros k l Hk Hl. simpl in Hk. rewrite lookup_fmap in Hk.
  destruct (pharmacyBookings (db w) !! k) as [l0|]; simpl in Hk; [|done].
  eexists. split; [apply lookup_insert_eq|].
  destruct (decide (line_bookingId l0 = id)) as [|Hother];
    inversion Hk; subst l; done.
Qed.

(** C8. The source sends a [payment.captured] webhook with a valid
    signature to [processPaymentSuccess] with an empty checkout signature;
    a SHA-256 hex digest has 64 characters, so the verification there
    fails and the webhook changes nothing: the payment is not marked
    [SUCCESS] and the order is not advanced to [CONFIRMED]. *)
Theorem captured_webhook_changes_nothing signature payload entity orderId
    secret w :
  (∀ key text, String.length (hmac_sha256_hex rt key text) = 64) →
  WEBHOOK_SECRET rt = Some secret → secret ≠ "" →
  signature = hmac_sha256_hex rt secret (JSON_stringify rt payload) →
  webhook_event payload = "payment.captured" →
  webhook_payment payload = Some entity →
  entity_notes_orderId entity = Some orderId →
  is_Some (bookings (db w) !! orderId) →
  PaymentService.handleWebhook rt signature payload w = (Returned, w).
Proof.
  intros Hdigest Hsecret Hne -> Hevent Hpayment Hnotes [b Hb].
  unfold PaymentService.handleWebhook.
  rewrite Hsecret, Hpayment, Hevent. simpl.
  rewrite (bool_decide_eq_false_2 _ Hne). simpl.
  rewrite bool_decide_eq_true_2 by done. simpl.
  unfold PaymentService.handlePaymentCaptured. rewrite Hnotes, Hb.
  assert (PaymentService.verifyPaymentSignature rt
            (PaymentService.mkPaymentVerificationData (entity_id entity)
               (entity_order_id entity) "") = false) as Hverify.
  { unfold PaymentService.verifyPaymentSignature.
    destruct (RAZORPAY_KEY_SECRET rt) as [key|]; [|done].
    destruct (Js.truthy_string (Some key)); [|done].
    apply bool_decide_eq_false_2. simpl. intros Hempty.
    apply (f_equal String.length) in Hempty.
    rewrite Hdigest in Hempty. done. }
  unfold PaymentService.processPaymentSuccess. rewrite Hverify. simpl.
  by destruct (bool_decide (orderId = "")).
Qed.

End Settlement.

(** * The properties on the sample shop *)

Section Examples.

Import Prisma OrderController Sample.

(** C1 on the end-to-end example: two units at 100 from the approved
    pharmacy, declared total 200. *)
Lemma createOrder_commission_split_example :
  success
    (reply_json (createOrder rt gateway_up cuid customer request opening).1)
  = true
  ∧ ∃ booking payment,
      bookings (db placed) !! "cbooking001" = Some booking
      ∧ payments (db placed) !! "cbooking001" = Some payment
      ∧ booking_status booking = PENDING
      ∧ booking_totalAmount booking = 200%float
      ∧ booking_commissionAmount booking = 32%float
      ∧ payment_vendorAmount payment = 168%float
      ∧ (booking_commissionAmount booking
         + payment_vendorAmount payment)%float
        = booking_totalAmount booking.
Proof.
  assert (success
            (reply_json
               (createOrder rt gateway_up cuid customer request opening).1)
          = true) as Hok by (vm_compute; reflexivity).
  split; [exact Hok|].
  destruct (createOrder_commission_split rt gateway_up cuid customer request
              opening _ _ (surjective_pairing _) Hok)
    as (created & booking & payment & vendor & Hreply & Hb & Hp & Hv & _
        & Hstatus & _ & _ & _ & _ & _ & _ & _ & _ & Hexample).
  assert (created_orderId created = "cbooking001") as Hid.
  { vm_compute in Hreply. by inversion Hreply. }
  rewrite Hid in Hb, Hp.
  assert (booking_vendorId booking = "cvendor0001") as Hvid.
  { vm_compute in Hb. by inversion Hb. }
  rewrite Hvid in Hv.
  assert (vendor_vendorType vendor ≠ LOCAL_MARKET) as Hnot.
  { vm_compute in Hv. by inversion Hv. }
  destruct (Hexample two_at_100 eq_refl eq_refl eq_refl eq_refl Hnot)
    as (Ht & Hc & Hva & Hsum).
  exists booking, payment. done.
Defined.

(** C9 on the example with the gateway down. *)
Lemma createOrder_gateway_failure_example :
  ∃ created w',
    createOrder rt gateway_down cuid customer request opening
    = (mkReply 201
         (createSuccessResponse API_MESSAGES.ORDER_CREATED
            (OrderCreated created)), w')
    ∧ created_razorpayOrderId created = None
    ∧ payment_razorpayOrderId <$> payments (db w') !! "cbooking001"
      = Some None
    ∧ booking_status <$> bookings (db w') !! "cbooking001" = Some PENDING.
Proof.
  assert (∃ v, validate_catalog rt request (db opening) = inr v) as [v Hv].
  { vm_compute. by eexists. }
  assert (∃ d1,
            create_transaction cuid customer request v
              (calculateCommission (checked_total v)
                 (vendor_vendorType (checked_vendor v)))
              (calculateVendorAmount (checked_total v)
                 (calculateCommission (checked_total v)
                    (vendor_vendorType (checked_vendor v))))
              (db opening) = Some d1) as [d1 Hd1].
  { vm_compute in Hv. inversion Hv; subst v. vm_compute. by eexists. }
  destruct (createOrder_gateway_failure_not_fatal rt gateway_down cuid
              customer request opening v d1)
    as (created & booking & payment & w' & Hrun & Hdb & Hid & Hst & Hgw
        & Hb & Hbs & Hp & Hpg & _).
  - reflexivity.
  - vm_compute; reflexivity.
  - exact Hv.
  - vm_compute in Hv. inversion Hv; subst v. vm_compute; reflexivity.
  - exact Hd1.
  - reflexivity.
  - exists created, w'. rewrite Hdb. change (cuid 0) with "cbooking001" in *.
    rewrite Hb, Hp. simpl. by rewrite Hbs, Hpg.
Defined.

(** C4 on the example with the declared total 199, and on the example as
    it is. *)
Lemma createOrder_total_tolerance_example :
  createOrder rt gateway_up cuid customer
    (mkCreateOrderData [two_at_100] 199 None) opening
  = (fail 400 "Total amount mismatch", opening)
  ∧ (createOrder rt gateway_up cuid customer request opening).1
    ≠ fail 400 "Total amount mismatch".
Proof.
  split.
  - apply (createOrder_total_tolerance rt gateway_up cuid customer
             (mkCreateOrderData [two_at_100] 199 None) opening).
    + vm_compute; reflexivity.
    + reflexivity.
    + vm_compute; reflexivity.
    + vm_compute. by eexists.
  - apply (createOrder_total_tolerance rt gateway_up cuid customer request
             opening).
    vm_compute; reflexivity.
Defined.

(** C5 on a line of two where the product asks for five. *)
Lemma createOrder_all_or_nothing_example :
  ∃ msg,
    createOrder rt gateway_up cuid customer too_few opening
    = (fail 400 msg, opening)
    ∧ msg = "Minimum order quantity for Saffron is n".
Proof.
  assert (∃ ps, product_findMany (db opening)
                  (item_productId <$> order_items too_few) = Some ps)
    as [ps Hps] by (vm_compute; by eexists).
  destruct (createOrder_all_or_nothing rt gateway_up cuid customer too_few
              opening ps) as (msg & Hrun & _).
  - reflexivity.
  - vm_compute; reflexivity.
  - exact Hps.
  - right. right. vm_compute in Hps. inversion Hps; subst ps.
    eexists _, _. split; [by left|]. split; [vm_compute; reflexivity|].
    left. vm_compute; reflexivity.
  - exists msg. split; [done|].
    assert (createOrder rt gateway_up cuid customer too_few opening
            = (fail 400 "Minimum order quantity for Saffron is n", opening))
      as Heq by (vm_compute; reflexivity).
    rewrite Hrun in Heq. by inversion Heq.
Defined.

(** C10 on the example item listed twice. *)
Lemma createOrder_duplicate_product_example :
  createOrder rt gateway_up cuid customer doubled opening
  = (fail 400 "Some products are not available", opening).
Proof.
  apply (createOrder_duplicate_product rt gateway_up cuid customer doubled
           opening 0 1 two_at_100 two_at_100).
  - reflexivity.
  - vm_compute; reflexivity.
  - vm_compute. by eexists.
  - reflexivity.
  - reflexivity.
  - done.
  - reflexivity.
Defined.

(** C2. The transition table forbids [PENDING → COMPLETED], and the
    controller carries it out: asked by the owning vendor to complete the
    pending order of the example, [updateOrderStatus] answers 200 and the
    order and its line are [COMPLETED]. *)
Theorem pending_order_completed_directly :
  let run := updateOrderStatus pharmacist "cbooking001" (to COMPLETED)
               placed in
  isValidOrderStatusTransition PENDING COMPLETED = false
  ∧ booking_status <$> bookings (db placed) !! "cbooking001" = Some PENDING
  ∧ run.1 = mkReply 200
              (createSuccessResponse API_MESSAGES.ORDER_UPDATED
                 (OrderStatus "cbooking001" COMPLETED))
  ∧ booking_status <$> bookings (db run.2) !! "cbooking001" = Some COMPLETED
  ∧ line_status <$> pharmacyBookings (db run.2) !! "cline000001"
    = Some COMPLETED.
Proof. vm_compute. done. Qed.

(** C6. After a [payment.failed] webhook for the pending order of the
    example the order is [CANCELLED] and its line is still [PENDING]:
    [processPaymentFailure] updates the payment and the booking and then
    addresses the [marketBooking] model, never the order's lines, so the
    statuses that mirrored each other before no longer do. *)
Theorem payment_failure_breaks_status_mirror :
  let settled := (PaymentService.handleWebhook rt digest failed placed).2 in
  status_mirrored (db placed) "cbooking001"
  ∧ booking_status <$> bookings (db settled) !! "cbooking001"
    = Some CANCELLED
  ∧ line_bookingId <$> pharmacyBookings (db settled) !! "cline000001"
    = Some "cbooking001"
  ∧ line_status <$> pharmacyBookings (db settled) !! "cline000001"
    = Some PENDING
  ∧ ¬ status_mirrored (db settled) "cbooking001".
Proof.
  intros settled.
  assert (booking_status <$> bookings (db settled) !! "cbooking001"
          = Some CANCELLED) as Hb by (vm_compute; reflexivity).
  assert (∃ l, pharmacyBookings (db settled) !! "cline000001" = Some l
               ∧ line_bookingId l = "cbooking001"
               ∧ line_status l = PENDING) as (l & Hl & Hlb & Hls).
  { vm_compute. by eexists. }
  split.
  { intros k l0 Hk Hid.
    assert (pharmacyBookings (db placed)
            = {[ "cline000001" :=
                   mkPharmacyBooking "cbooking001" "cprofile001"
                     "cproduct001" 2 100 200 false None PENDING ]}) as Hmap
      by (vm_compute; reflexivity).
    rewrite Hmap in Hk. apply lookup_singleton_Some in Hk as [_ <-].
    eexists. split; [vm_compute; reflexivity|done]. }
  split; [done|]. rewrite Hl. simpl. rewrite Hlb, Hls.
  split; [done|]. split; [done|].
  intros Hmirror. destruct (Hmirror _ _ Hl Hlb) as (b & Hb' & Heq).
  rewrite Hb' in Hb. simpl in Hb. congruence.
Qed.



(** C7 on the paid order of the example: one refund of 200, and none on
    cancelling again. *)
Lemma cancelOrder_refunds_once_example :
  let run := cancelOrder rt gateway_up customer "cbooking001" paid in
  refund_calls (trace run.2)
  = [("cpayment001", Some 200%float, Some "Customer cancellation")]
  ∧ cancelOrder rt gateway_down customer "cbooking001" run.2
    = (fail 400 "Order is already cancelled", run.2).
Proof.
  intros run.
  destruct (cancelOrder_refunds_once rt gateway_up customer "cbooking001"
              paid run.1 run.2 (surjective_pairing _))
    as (Hcalls & _ & Hagain & _); [vm_compute; reflexivity|].
  split; [|apply Hagain].
  assert (∃ p, payments (db paid) !! "cbooking001" = Some p
               ∧ payment_paymentStatus p = SUCCESS
               ∧ payment_id p = "cpayment001"
               ∧ payment_totalAmount p = 200%float)
    as (p & Hp & Hs & Hpid & Hamount) by (vm_compute; by eexists).
  rewrite (Hcalls p Hp Hs), Hpid, Hamount. vm_compute. reflexivity.
Defined.

(** C8 on the captured-payment webhook for the order of the example. *)
Lemma captured_webhook_changes_nothing_example :
  PaymentService.handleWebhook rt digest captured placed = (Returned, placed)
  ∧ payment_paymentStatus <$> payments (db placed) !! "cbooking001"
    = Some PAYMENT_PENDING
  ∧ booking_status <$> bookings (db placed) !! "cbooking001" = Some PENDING.
Proof.
  split; [|split; vm_compute; reflexivity].
  apply (captured_webhook_changes_nothing rt digest captured
           (mkPaymentEntity "pay_1" "order_1" (Some "cbooking001") None)
           "cbooking001" "webhook_secret" placed).
  - intros key text. reflexivity.
  - reflexivity.
  - done.
  - reflexivity.
  - reflexivity.
  - reflexivity.
  - reflexivity.
  - vm_compute. by eexists.
Defined.

End Examples.
